(** * Ocassia backend: booking workflow, availability, reviews and dashboards

    A shallow embedding of the Express/Mongoose route handlers of the
    Ocassia backend that deal with bookings (src/unnamed/part_005, the
    bookings router), event-center listings and availability
    (src/server/routes/centers.js), reviews (src/server/routes/reviews.js)
    and the host dashboard (src/unnamed/part_011), together with the
    Booking schema and its save hooks (src/server/models/Booking.js).

    Conventions of the embedding:
    - Mongo ObjectIds are [N]; [id.toString() === id'.toString()] is [N.eqb].
    - Dates are milliseconds since the epoch ([Z]); a JS [Date] comparison
      [d1 <= d2] compares these numbers.  Only valid dates are modelled.
    - Money amounts and counts are [Z].
    - An optional request field is an [option]; JS truthiness of a string is
      "present and non-empty", of a number "present and non-zero".
    - A handler returns the HTTP outcome together with the new database
      state.  [errorResponse] is [Failure code], [successResponse] is
      [Success code], and an exception forwarded with [next(error)] is
      [Thrown]: writes done before the exception stay in the database. *)

From Stdlib Require Import String Ascii ZArith NArith List Bool Lia Permutation.
Import ListNotations.
Open Scope string_scope.
Open Scope Z_scope.

(** ** utils/constants.js (src/unnamed/part_003) *)

Module STATUS_CODES.
Definition OK : Z := 200.
Definition CREATED : Z := 201.
Definition BAD_REQUEST : Z := 400.
Definition UNAUTHORIZED : Z := 401.
Definition FORBIDDEN : Z := 403.
Definition NOT_FOUND : Z := 404.
Definition CONFLICT : Z := 409.
End STATUS_CODES.
Import STATUS_CODES.

Definition ADMIN : string := "admin".
Definition CENTER : string := "center".

(** [BOOKING_STATUS]: the four booking states. *)
Inductive BOOKING_STATUS : Set := PENDING | CONFIRMED | CANCELLED | COMPLETED.

Definition status_value (s : BOOKING_STATUS) : string :=
  match s with
  | PENDING => "pending"
  | CONFIRMED => "confirmed"
  | CANCELLED => "cancelled"
  | COMPLETED => "completed"
  end.

(** [Object.values(BOOKING_STATUS).includes(s)], returning the status. *)
Definition parse_status (s : string) : option BOOKING_STATUS :=
  if String.eqb s "pending" then Some PENDING
  else if String.eqb s "confirmed" then Some CONFIRMED
  else if String.eqb s "cancelled" then Some CANCELLED
  else if String.eqb s "completed" then Some COMPLETED
  else None.

Definition status_eqb (a b : BOOKING_STATUS) : bool :=
  match a, b with
  | PENDING, PENDING | CONFIRMED, CONFIRMED
  | CANCELLED, CANCELLED | COMPLETED, COMPLETED => true
  | _, _ => false
  end.

(** [Array.prototype.includes] on strings. *)
Definition includes (l : list string) (s : string) : bool :=
  existsb (String.eqb s) l.

(** The result of a route handler. *)
Inductive response : Set :=
| Success (code : Z)
| Failure (code : Z)
| Thrown.

(** The ambient values a handler reads: [new Date()], the server's
    local-time offset used by [setHours], and the random suffix of a
    generated booking number. *)
Record env : Set := mk_env {
  now : Z;
  tz_offset : Z;
  random_number : string
}.

Record User : Set := mk_user {
  user_id : N;
  role : string
}.

(** JS [x || d] for an optional string. *)
Definition or_default (x : option string) (d : string) : string :=
  match x with
  | Some s => if String.eqb s "" then d else s
  | None => d
  end.

(** [const endDate = new Date(d); endDate.setHours(23, 59, 59, 999)]:
    the last millisecond of [d]'s day in local time. *)
Definition day_ms : Z := 86400000.
Definition end_of_day (tz d : Z) : Z :=
  let local := d + tz in
  local - local mod day_ms + (day_ms - 1) - tz.

(** ** models/Booking.js *)

Record status_entry : Set := mk_status_entry {
  se_status : BOOKING_STATUS;
  se_changedBy : N;
  se_changedAt : Z;
  se_reason : string
}.

Record cancellation_info : Set := mk_cancellation {
  cancelledBy : N;
  cancelledAt : Z;
  cancel_reason : string
}.

Record Booking : Set := mk_booking {
  b_id : N;
  bookingType : string;
  bookingNumber : option string;
  customer : N;
  provider : N;
  serviceProvider : option N;
  eventCenter : option N;
  eventDate : Z;
  guestCount : option Z;
  baseAmount : option Z;
  totalAmount : Z;
  paymentStatus : string;
  paymentMethod : string;
  depositPaid : Z;
  balanceDue : Z;
  status : BOOKING_STATUS;
  statusHistory : list status_entry;
  cancellation : option cancellation_info;
  reviewed : bool;
  review : option N
}.

(** Field updates [booking.f = v] used by the handlers. *)
Definition set_status_history (b : Booking) (s : BOOKING_STATUS)
  (h : list status_entry) : Booking :=
  mk_booking (b_id b) (bookingType b) (bookingNumber b) (customer b)
    (provider b) (serviceProvider b) (eventCenter b) (eventDate b)
    (guestCount b) (baseAmount b) (totalAmount b) (paymentStatus b)
    (paymentMethod b) (depositPaid b) (balanceDue b) s h
    (cancellation b) (reviewed b) (review b).

Definition set_cancellation (b : Booking) (c : cancellation_info) : Booking :=
  mk_booking (b_id b) (bookingType b) (bookingNumber b) (customer b)
    (provider b) (serviceProvider b) (eventCenter b) (eventDate b)
    (guestCount b) (baseAmount b) (totalAmount b) (paymentStatus b)
    (paymentMethod b) (depositPaid b) (balanceDue b) (status b)
    (statusHistory b) (Some c) (reviewed b) (review b).

Definition set_review (b : Booking) (r : N) : Booking :=
  mk_booking (b_id b) (bookingType b) (bookingNumber b) (customer b)
    (provider b) (serviceProvider b) (eventCenter b) (eventDate b)
    (guestCount b) (baseAmount b) (totalAmount b) (paymentStatus b)
    (paymentMethod b) (depositPaid b) (balanceDue b) (status b)
    (statusHistory b) (cancellation b) true (Some r).

Definition set_bookingNumber (b : Booking) (n : string) : Booking :=
  mk_booking (b_id b) (bookingType b) (Some n) (customer b)
    (provider b) (serviceProvider b) (eventCenter b) (eventDate b)
    (guestCount b) (baseAmount b) (totalAmount b) (paymentStatus b)
    (paymentMethod b) (depositPaid b) (balanceDue b) (status b)
    (statusHistory b) (cancellation b) (reviewed b) (review b).

Definition set_balanceDue (b : Booking) (v : Z) : Booking :=
  mk_booking (b_id b) (bookingType b) (bookingNumber b) (customer b)
    (provider b) (serviceProvider b) (eventCenter b) (eventDate b)
    (guestCount b) (baseAmount b) (totalAmount b) (paymentStatus b)
    (paymentMethod b) (depositPaid b) v (status b)
    (statusHistory b) (cancellation b) (reviewed b) (review b).

(** [booking.statusHistory.push({...})] together with [booking.status = s]. *)
Definition push_status (b : Booking) (s : BOOKING_STATUS) (by_ : N) (at_ : Z)
  (reason : string) : Booking :=
  set_status_history b s
    (statusHistory b ++ [mk_status_entry s by_ at_ reason]).

(** The validators of [bookingSchema]: enums, [required] and [min]. *)
Definition nonempty (s : option string) : bool :=
  match s with Some v => negb (String.eqb v "") | None => false end.

Definition bookingSchema_valid (b : Booking) : bool :=
  includes ["provider"; "center"] (bookingType b)
  && nonempty (bookingNumber b)
  && match guestCount b with Some g => 1 <=? g | None => true end
  && match baseAmount b with Some a => 0 <=? a | None => false end
  && (0 <=? totalAmount b)
  && includes ["pending"; "partial"; "completed"; "refunded"] (paymentStatus b)
  && includes ["escrow"; "direct"; "cash"] (paymentMethod b)
  && (0 <=? depositPaid b)
  && (0 <=? balanceDue b).

(** First [pre("save")] hook: generate a booking number when missing.
    [random] stands for ["<prefix>-<timestamp>-<random>"]. *)
Definition preSave_bookingNumber (random : string) (b : Booking) : Booking :=
  if nonempty (bookingNumber b) then b
  else set_bookingNumber b
         ((if String.eqb (bookingType b) "provider" then "PRV-" else "CTR-")
          ++ random).

(** Second [pre("save")] hook: [this.balanceDue = totalAmount - depositPaid]. *)
Definition preSave_balanceDue (b : Booking) : Booking :=
  set_balanceDue b (totalAmount b - depositPaid b).

(** [doc.save()] (and [Model.create]): Mongoose registers validation as the
    first [pre("save")] hook (its validateBeforeSave plugin is unshifted in
    front of the schema's hooks), so the validators see the document before
    the two hooks of [bookingSchema] run; a validation error rejects the
    save, otherwise the hooked document is written. *)
Definition mongoose_save (random : string) (b : Booking) : option Booking :=
  if bookingSchema_valid b
  then Some (preSave_balanceDue (preSave_bookingNumber random b))
  else None.

(** ** models/EventCenter.js: the parts the booking routes use *)

Record booked_date : Set := mk_booked_date {
  bd_startDate : Z;
  bd_endDate : Z;
  bd_booking : option N   (* [booking] is not a required path *)
}.

Record blocked_date : Set := mk_blocked_date {
  bl_startDate : Z;
  bl_endDate : Z;
  bl_reason : option string
}.

Record EventCenter : Set := mk_center {
  ec_id : N;
  owner : N;
  isActive : bool;
  verificationStatus : string;
  capacity_minimum : Z;
  capacity_maximum : Z;
  bookedDates : list booked_date;
  blockedDates : list blocked_date
}.

Definition set_bookedDates (c : EventCenter) (l : list booked_date) : EventCenter :=
  mk_center (ec_id c) (owner c) (isActive c) (verificationStatus c)
    (capacity_minimum c) (capacity_maximum c) l (blockedDates c).

(** [EventCenter.findById(id)]; [findById(undefined)] yields [null]. *)
Definition findCenter (id : option N) (cs : list EventCenter) : option EventCenter :=
  match id with
  | Some i => find (fun c => N.eqb (ec_id c) i) cs
  | None => None
  end.

(** [eventCenter.save()]: the stored document with that id is replaced. *)
Definition save_center (c : EventCenter) (cs : list EventCenter) : list EventCenter :=
  map (fun c' => if N.eqb (ec_id c') (ec_id c) then c else c') cs.

(** [bookedDates.filter(d => d.booking.toString() !== id.toString())].
    The predicate is applied from left to right; on an entry without a
    [booking] it evaluates [undefined.toString()] and throws a TypeError,
    which is [None]. *)
Fixpoint filter_bookedDates (id : N) (l : list booked_date)
  : option (list booked_date) :=
  match l with
  | [] => Some []
  | d :: r =>
      match bd_booking d with
      | None => None
      | Some x =>
          match filter_bookedDates id r with
          | None => None
          | Some r' => Some (if negb (N.eqb x id) then d :: r' else r')
          end
      end
  end.

(** ** models/Notification.js: [EscrowTransaction] (status and link only) *)

Record EscrowTransaction : Set := mk_escrow {
  et_booking : N;
  et_amount : Z;
  et_status : string   (* created | funded | held | disputed | released | ... *)
}.

(** ** models/Review (src/unnamed/part_017): the fields the routes read *)

Record Review : Set := mk_review {
  rv_id : N;
  rv_booking : N;
  rv_reviewer : N;
  rv_overall : Z
}.

(** The database as seen by one request on one booking: the booking the
    request names (already found by [Booking.findById]), the event centers,
    the escrow transactions and the reviews. *)
Record DB : Set := mk_db {
  db_booking : Booking;
  db_centers : list EventCenter;
  db_escrow : list EscrowTransaction;
  db_reviews : list Review
}.

Definition set_db_booking (db : DB) (b : Booking) : DB :=
  mk_db b (db_centers db) (db_escrow db) (db_reviews db).
Definition set_db_centers (db : DB) (cs : list EventCenter) : DB :=
  mk_db (db_booking db) cs (db_escrow db) (db_reviews db).
Definition set_db_reviews (db : DB) (rs : list Review) : DB :=
  mk_db (db_booking db) (db_centers db) (db_escrow db) rs.

(** ** PUT /api/bookings/:bookingId/status (src/unnamed/part_005) *)

Definition allowedTransitions (s : BOOKING_STATUS) : list BOOKING_STATUS :=
  match s with
  | PENDING => [CONFIRMED; CANCELLED]
  | CONFIRMED => [COMPLETED; CANCELLED]
  | COMPLETED => []
  | CANCELLED => []
  end.

Definition transition_allowed (cur next : BOOKING_STATUS) : bool :=
  existsb (status_eqb next) (allowedTransitions cur).

(** [isCustomer || isProvider || isAdmin]. *)
Definition is_party (u : User) (b : Booking) : bool :=
  N.eqb (customer b) (user_id u) || N.eqb (provider b) (user_id u)
  || String.eqb (role u) ADMIN.

(** "Remove from booked dates if center booking", shared by the
    cancellation branch of the status route and by the delete route.
    [None] is an exception thrown by the filter. *)
Definition release_center_dates (b : Booking) (cs : list EventCenter)
  : option (list EventCenter) :=
  if String.eqb (bookingType b) "center" then
    match findCenter (eventCenter b) cs with
    | Some ec =>
        match filter_bookedDates (b_id b) (bookedDates ec) with
        | Some l => Some (save_center (set_bookedDates ec l) cs)
        | None => None
        end
    | None => Some cs
    end
  else Some cs.

Definition update_status (e : env) (u : User) (req_status : option string)
  (reason : option string) (db : DB) : response * DB :=
  match req_status with
  | None => (Failure BAD_REQUEST, db)
  | Some s =>
    if String.eqb s "" then (Failure BAD_REQUEST, db) else
    match parse_status s with
    | None => (Failure BAD_REQUEST, db)
    | Some st =>
      let booking := db_booking db in
      let isCustomer := N.eqb (customer booking) (user_id u) in
      let isProvider := N.eqb (provider booking) (user_id u) in
      let isAdmin := String.eqb (role u) ADMIN in
      if negb isCustomer && negb isProvider && negb isAdmin
      then (Failure FORBIDDEN, db) else
      if negb (transition_allowed (status booking) st)
      then (Failure BAD_REQUEST, db) else
      if status_eqb st CONFIRMED && negb isProvider && negb isAdmin
      then (Failure FORBIDDEN, db) else
      if status_eqb st COMPLETED && negb isProvider && negb isAdmin
      then (Failure FORBIDDEN, db) else
      let b1 := push_status booking st (user_id u) (now e)
                  (or_default reason ("Status changed to " ++ status_value st)) in
      (* confirmed center booking: mark the day as booked *)
      let centers1 :=
        if status_eqb st CONFIRMED && String.eqb (bookingType b1) "center" then
          match findCenter (eventCenter b1) (db_centers db) with
          | Some ec =>
              save_center
                (set_bookedDates ec
                   (bookedDates ec ++
                    [mk_booked_date (eventDate b1)
                       (end_of_day (tz_offset e) (eventDate b1))
                       (Some (b_id b1))]))
                (db_centers db)
          | None => db_centers db
          end
        else db_centers db in
      (* cancellation *)
      let step :=
        if status_eqb st CANCELLED then
          let b2 := set_cancellation b1
                      (mk_cancellation (user_id u) (now e)
                         (or_default reason "No reason provided")) in
          match release_center_dates b2 centers1 with
          | Some cs => Some (b2, cs)
          | None => None
          end
        else Some (b1, centers1) in
      match step with
      | None => (Thrown, set_db_centers db centers1)
      | Some (b2, centers2) =>
          match mongoose_save (random_number e) b2 with
          | None => (Thrown, set_db_centers db centers2)
          | Some b3 => (Success OK, set_db_booking (set_db_centers db centers2) b3)
          end
      end
    end
  end.

(** ** DELETE /api/bookings/:bookingId (src/unnamed/part_005) *)

Definition cancel_booking (e : env) (u : User) (reason : option string) (db : DB)
  : response * DB :=
  let booking := db_booking db in
  if negb (is_party u booking) then (Failure FORBIDDEN, db) else
  if status_eqb (status booking) CANCELLED then (Failure BAD_REQUEST, db) else
  if status_eqb (status booking) COMPLETED then (Failure BAD_REQUEST, db) else
  let b1 := set_cancellation (set_status_history booking CANCELLED (statusHistory booking))
              (mk_cancellation (user_id u) (now e) (or_default reason "No reason provided")) in
  let b2 := set_status_history b1 CANCELLED
              (statusHistory b1 ++
               [mk_status_entry CANCELLED (user_id u) (now e)
                  (or_default reason "Booking cancelled")]) in
  match release_center_dates b2 (db_centers db) with
  | None => (Thrown, db)
  | Some cs =>
      match mongoose_save (random_number e) b2 with
      | None => (Thrown, set_db_centers db cs)
      | Some b3 => (Success OK, set_db_booking (set_db_centers db cs) b3)
      end
  end.

(** ** Date-range overlap (centers.js availability route, bookings POST) *)

(** [start <= bookingEnd && end >= bookingStart] for one stored range. *)
Definition overlaps (start end_ s e : Z) : bool :=
  (start <=? e) && (end_ >=? s).

(** [center.availability.bookedDates.some(...)] *)
Definition isBooked (c : EventCenter) (start end_ : Z) : bool :=
  existsb (fun d => overlaps start end_ (bd_startDate d) (bd_endDate d))
    (bookedDates c).

(** [center.availability.blockedDates.some(...)] *)
Definition isBlocked (c : EventCenter) (start end_ : Z) : bool :=
  existsb (fun d => overlaps start end_ (bl_startDate d) (bl_endDate d))
    (blockedDates c).

(** ** GET /api/centers/:centerId/availability (src/server/routes/centers.js) *)

Inductive availability_reply : Set :=
| AvailabilityOk (isAvailable : bool) (reason : option string)
| AvailabilityError (code : Z).

Definition get_availability (startDate endDate : option Z)
  (center : option EventCenter) : availability_reply :=
  match startDate, endDate with
  | Some start, Some end_ =>
      match center with
      | None => AvailabilityError NOT_FOUND
      | Some c =>
          let booked := isBooked c start end_ in
          let blocked := isBlocked c start end_ in
          AvailabilityOk (negb booked && negb blocked)
            (if booked then Some "Already booked"
             else if blocked then Some "Blocked by owner" else None)
      end
  | _, _ => AvailabilityError BAD_REQUEST
  end.

(** ** POST /api/bookings (src/unnamed/part_005) *)

(** models/ServiceProvider: the fields the booking route reads. *)
Record ServiceProvider : Set := mk_sp {
  sp_id : N;
  sp_provider : N;
  sp_isActive : bool;
  sp_verificationStatus : string;
  sp_unavailableDates : list Z;
  sp_availability_status : string
}.

(** [d.toDateString()] identifies the local calendar day of [d]. *)
Definition local_day (tz d : Z) : Z := (d + tz) / day_ms.

(** The body of the request, with [eventDetails] and [pricing] flattened. *)
Record CreateRequest : Set := mk_create_req {
  rq_bookingType : option string;
  rq_serviceProviderId : option N;
  rq_eventCenterId : option N;
  rq_eventDate : option Z;
  rq_startTime : option string;
  rq_endTime : option string;
  rq_guestCount : option Z;
  rq_baseAmount : option Z;
  rq_totalAmount : option Z;
  rq_paymentMethod : option string
}.

(** [if (eventDetails.guestCount)] *)
Definition truthy_num (x : option Z) : bool :=
  match x with Some n => negb (n =? 0) | None => false end.

(** The checks of the center branch, from the availability check on:
    [None] when they pass, [Some code] for the error response. *)
Definition center_booking_checks (tz : Z) (ec : EventCenter) (eventDate : Z)
  (guest : option Z) : option Z :=
  let startDate := eventDate in
  let endDate := end_of_day tz eventDate in
  if isBooked ec startDate endDate || isBlocked ec startDate endDate
  then Some CONFLICT
  else match guest with
       | Some g =>
           if negb (g =? 0) then
             if (g <? capacity_minimum ec) || (g >? capacity_maximum ec)
             then Some BAD_REQUEST else None
           else None
       | None => None
       end.

(** [const bookingData = {...}]: the document handed to [Booking.create];
    the unset paths take their schema defaults ([paymentStatus] "pending",
    [depositPaid] and [balanceDue] 0, [reviewed] false). *)
Definition bookingData (e : env) (u : User) (new_id : N) (bt : string) (prov : N)
  (rq : CreateRequest) (eventDate total : Z) : Booking :=
  mk_booking new_id bt None (user_id u) prov
    (rq_serviceProviderId rq) (rq_eventCenterId rq) eventDate
    (rq_guestCount rq) (rq_baseAmount rq) total
    "pending"
    (match rq_paymentMethod rq with Some m => m | None => "escrow" end) 0 0
    PENDING [mk_status_entry PENDING (user_id u) (now e) "Booking created"]
    None false None.

Definition create_booking (e : env) (u : User) (new_id : N)
  (sps : list ServiceProvider) (centers : list EventCenter)
  (rq : CreateRequest) : response * option Booking :=
  match rq_bookingType rq with
  | Some bt =>
    if negb (includes ["provider"; "center"] bt) then (Failure BAD_REQUEST, None) else
    match rq_eventDate rq with
    | None => (Failure BAD_REQUEST, None)
    | Some eventDate =>
    if negb (nonempty (rq_startTime rq)) || negb (nonempty (rq_endTime rq))
    then (Failure BAD_REQUEST, None) else
    if negb (truthy_num (rq_totalAmount rq)) then (Failure BAD_REQUEST, None) else
    let total := match rq_totalAmount rq with Some t => t | None => 0 end in
    (* provider resolution: the provider branch or the center branch *)
    let branch : response + N :=
      if String.eqb bt "provider" then
        match rq_serviceProviderId rq with
        | None => inl (Failure BAD_REQUEST)
        | Some spid =>
          match find (fun sp => N.eqb (sp_id sp) spid) sps with
          | None => inl (Failure NOT_FOUND)
          | Some sp =>
            if negb (sp_isActive sp)
               || negb (String.eqb (sp_verificationStatus sp) "verified")
            then inl (Failure BAD_REQUEST) else
            let isUnavailable :=
              existsb (fun d => Z.eqb (local_day (tz_offset e) d)
                                      (local_day (tz_offset e) eventDate))
                (sp_unavailableDates sp) in
            if isUnavailable
               || negb (String.eqb (sp_availability_status sp) "available")
            then inl (Failure CONFLICT) else inr (sp_provider sp)
          end
        end
      else
        match rq_eventCenterId rq with
        | None => inl (Failure BAD_REQUEST)
        | Some cid =>
          match findCenter (Some cid) centers with
          | None => inl (Failure NOT_FOUND)
          | Some ec =>
            if negb (isActive ec)
               || negb (String.eqb (verificationStatus ec) "verified")
            then inl (Failure BAD_REQUEST) else
            match center_booking_checks (tz_offset e) ec eventDate (rq_guestCount rq) with
            | Some code => inl (Failure code)
            | None => inr (owner ec)
            end
          end
        end in
    match branch with
    | inl r => (r, None)
    | inr prov =>
      if N.eqb prov (user_id u) then (Failure BAD_REQUEST, None) else
      match mongoose_save (random_number e)
              (bookingData e u new_id bt prov rq eventDate total) with
      | None => (Thrown, None)
      | Some b => (Success CREATED, Some b)
      end
    end
    end
  | None => (Failure BAD_REQUEST, None)
  end.

(** ** POST /api/reviews (src/server/routes/reviews.js) *)

(** [Review.create]: the [ratings.overall] validators (1 to 5) and the
    unique index on [{booking, reviewer}]; [None] is a thrown error. *)
Definition review_create (rs : list Review) (rv : Review) : option (list Review) :=
  if (rv_overall rv <? 1) || (5 <? rv_overall rv) then None
  else if existsb (fun r => N.eqb (rv_booking r) (rv_booking rv)
                            && N.eqb (rv_reviewer r) (rv_reviewer rv)) rs
  then None
  else Some (rs ++ [rv])%list.

(** The route, for the booking found by [Booking.findById(bookingId)].
    [updateRatings] catches its own errors and only touches the rating
    aggregates of providers and centers, which are not modelled. *)
Definition create_review (e : env) (u : User) (overall : option Z) (new_id : N)
  (db : DB) : response * DB :=
  let booking := db_booking db in
  if negb (N.eqb (customer booking) (user_id u)) then (Failure FORBIDDEN, db) else
  if negb (status_eqb (status booking) COMPLETED) then (Failure BAD_REQUEST, db) else
  if reviewed booking then (Failure CONFLICT, db) else
  match overall with
  | None => (Failure BAD_REQUEST, db)
  | Some o =>
    if o =? 0 then (Failure BAD_REQUEST, db) else
    match review_create (db_reviews db) (mk_review new_id (b_id booking) (user_id u) o) with
    | None => (Thrown, db)
    | Some rs =>
        let db1 := set_db_reviews db rs in
        match mongoose_save (random_number e) (set_review booking new_id) with
        | None => (Thrown, db1)
        | Some b' => (Success CREATED, set_db_booking db1 b')
        end
    end
  end.

(** ** GET /api/dashboard/host: [totalSpent] (src/unnamed/part_011) *)

(** [$match]: customer, status and payment status. *)
Definition spent_match (userId : N) (b : Booking) : bool :=
  N.eqb (customer b) userId
  && status_eqb (status b) COMPLETED
  && includes ["completed"; "partial"] (paymentStatus b).

(** [$group: { _id: null, totalSpent: { $sum: "$pricing.totalAmount" } }]:
    no group (an empty result) when nothing matched. *)
Definition group_sum (docs : list Booking) : list Z :=
  match docs with
  | [] => []
  | _ => [fold_left (fun acc b => acc + totalAmount b) docs 0]
  end.

Definition host_totalSpent (userId : N) (bookings : list Booking) : Z :=
  let spentResult := group_sum (filter (spent_match userId) bookings) in
  match spentResult with
  | r :: _ => r
  | [] => 0
  end.

(** ** String helpers

    Strings handled by the routes are ASCII, so JavaScript's [trim()] (and
    Mongoose's [trim: true]) removes exactly the characters 9 to 13 and the
    space at both ends. *)
Definition js_space (c : ascii) : bool :=
  let n := nat_of_ascii c in
  Nat.eqb n 32 || (Nat.leb 9 n && Nat.leb n 13).

Fixpoint drop_spaces (l : list ascii) : list ascii :=
  match l with
  | [] => []
  | a :: r => if js_space a then drop_spaces r else l
  end.

Definition js_trim (s : string) : string :=
  string_of_list_ascii
    (rev (drop_spaces (rev (drop_spaces (list_ascii_of_string s))))).

(** ** POST /api/centers: the two handlers of src/server/routes/centers.js

    The file holds two versions of the centers router.  The first
    ([create_center_listing], lines 190-224) checks
    [user.centerProfile.cacVerified]; the second ([create_center_with_images],
    lines 685-765) creates or updates the owner's event center.  Both store
    an [owner], so both run against the event-center schema that declares
    it (src/unnamed/part_013): its validators on [name], [phone],
    [centerName] and [centerType] are modelled below. *)
Module CenterListing.

  (** A value read from a Mongoose document. *)
Inductive jsval : Set := JUndefined | JBool (b : bool) | JStr (s : string) | JNum (n : Z).

Definition truthy (v : jsval) : bool :=
    match v with
    | JUndefined => false
    | JBool b => b
    | JStr s => negb (String.eqb s "")
    | JNum n => negb (n =? 0)
    end.

  (** The paths declared under [centerProfile] in models/User.js. *)
Definition centerProfile_paths : list string :=
    ["centerName"; "centerType"; "location"; "facilities"; "capacity";
     "operatingHours"; "amenities"].

  (** [req.user]: id, role, [hostProfile.cacVerified], the [centerProfile]
      sub-document as stored, and [phone] ([None] when unset). *)
Record UserDoc : Set := mk_userdoc {
    ud_id : N;
    ud_role : string;
    hostProfile_cacVerified : bool;
    centerProfile : list (string * jsval);
    ud_phone : option string
  }.

Fixpoint lookup (k : string) (l : list (string * jsval)) : jsval :=
    match l with
    | [] => JUndefined
    | (k', v) :: r => if String.eqb k k' then v else lookup k r
    end.

  (** [user.centerProfile.p] on a document loaded by [User.findById]: the
      schema is strict, so a path it does not declare reads [undefined]. *)
Definition centerProfile_get (u : UserDoc) (p : string) : jsval :=
    if includes centerProfile_paths p then lookup p (centerProfile u)
    else JUndefined.

  (** An event-center document: id, [owner], and the paths [name], [phone],
      [centerName], [centerType] ([None] when unset). *)
Record Listing : Set := mk_listing {
    l_id : N;
    l_owner : N;
    l_name : option string;
    l_phone : option string;
    l_centerName : option string;
    l_centerType : option string
  }.

  (** The request body (multipart text fields), restricted to the paths
      [name], [centerName] and [centerType]; no file is uploaded. *)
Record Body : Set := mk_body {
    b_name : option string;
    b_centerName : option string;
    b_centerType : option string
  }.

  (** [trim: true] on an optional path. *)
Definition trim_opt (o : option string) : option string :=
    match o with Some s => Some (js_trim s) | None => None end.

  (** Mongoose runs no validator but [required] on an unset path.
      [minlength]/[maxlength] compare [v.length]; [match] accepts [''];
      [enum] accepts only the listed values. *)
Definition name_ok (o : option string) : bool :=
    match o with
    | None => true
    | Some v => Nat.leb 2 (String.length v) && Nat.leb (String.length v) 50
    end.

Definition is_digit (c : ascii) : bool :=
    Nat.leb 48 (nat_of_ascii c) && Nat.leb (nat_of_ascii c) 57.

  (** [match: /^[0-9]{10,15}$/] *)
Definition phone_ok (o : option string) : bool :=
    match o with
    | None => true
    | Some v =>
        String.eqb v ""
        || (forallb is_digit (list_ascii_of_string v)
            && Nat.leb 10 (String.length v) && Nat.leb (String.length v) 15)
    end.

Definition centerName_ok (o : option string) : bool :=
    match o with
    | None => true
    | Some v => Nat.leb (String.length v) 100
    end.

Definition centerType_values : list string :=
    ["Hotel/Resort"; "Conference Center"; "Banquet Hall"; "Outdoor Venue";
     "Community Center"; "Restaurant/Lounge"; "Religious Center"; "Garden/Park";
     "Other"].

Definition centerType_ok (o : option string) : bool :=
    match o with
    | None => true
    | Some v => includes centerType_values v
    end.

  (** The validators of the four paths, on the stored (trimmed) values. *)
Definition listing_valid (l : Listing) : bool :=
    name_ok (l_name l) && phone_ok (l_phone l)
    && centerName_ok (l_centerName l) && centerType_ok (l_centerType l).

  (** [findByIdAndUpdate(id, {...req.body, owner}, {runValidators: true})]:
      only the paths present in the update are set and validated. *)
Definition set_opt (new old : option string) : option string :=
    match new with Some _ => new | None => old end.

Definition apply_body (b : Body) (l : Listing) : Listing :=
    mk_listing (l_id l) (l_owner l)
      (set_opt (trim_opt (b_name b)) (l_name l)) (l_phone l)
      (set_opt (trim_opt (b_centerName b)) (l_centerName l))
      (set_opt (b_centerType b) (l_centerType l)).

Definition body_valid (b : Body) : bool :=
    name_ok (trim_opt (b_name b)) && centerName_ok (trim_opt (b_centerName b))
    && centerType_ok (b_centerType b).

Definition replace_listing (l : Listing) (ls : list Listing) : list Listing :=
    map (fun x => if N.eqb (l_id x) (l_id l) then l else x) ls.

  (** [authorize(USER_ROLES.CENTER)] *)
Definition authorize_center (u : UserDoc) : bool := String.eqb (ud_role u) CENTER.

  (** First handler: CAC check, then [EventCenter.create({...req.body, owner})]. *)
Definition create_center_listing (u : UserDoc) (new_id : N) (b : Body)
    (ls : list Listing) : response * list Listing :=
    if negb (authorize_center u) then (Failure FORBIDDEN, ls) else
    if negb (truthy (centerProfile_get u "cacVerified")) then (Failure FORBIDDEN, ls) else
    let doc := mk_listing new_id (ud_id u) (trim_opt (b_name b)) None
                 (trim_opt (b_centerName b)) (b_centerType b) in
    if listing_valid doc then (Success CREATED, (ls ++ [doc])%list)
    else (Thrown, ls).

  (** Second handler: [EventCenter.findOne({owner})]; when there is none,
      [new EventCenter({owner, centerName: req.body.name || "My Event Center",
      phone: req.user.phone}).save()]; then the validated update with the
      body, and 201.  A failing save or update is thrown to [next]; a center
      saved before a failing update stays. *)
Definition create_center_with_images (u : UserDoc) (new_id : N) (b : Body)
    (ls : list Listing) : response * list Listing :=
    if negb (authorize_center u) then (Failure FORBIDDEN, ls) else
    let found := find (fun l => N.eqb (l_owner l) (ud_id u)) ls in
    let step1 :=
      match found with
      | Some ec => Some (ec, ls)
      | None =>
          let ec := mk_listing new_id (ud_id u) None (trim_opt (ud_phone u))
                      (Some (js_trim (or_default (b_name b) "My Event Center"))) None in
          if listing_valid ec then Some (ec, (ls ++ [ec])%list) else None
      end in
    match step1 with
    | None => (Thrown, ls)
    | Some (ec, ls1) =>
        if body_valid b then
          (Success CREATED, replace_listing (apply_body b ec) ls1)
        else (Thrown, ls1)
    end.

End CenterListing.

(** ** Concrete data used by the examples, witnesses and counterexamples *)

Module Sample.
Definition env0 : env := mk_env 1000 0 "123".
Definition host : User := mk_user 1 "host".
Definition owner_user : User := mk_user 2 CENTER.
Definition stranger : User := mk_user 9 "host".

  (** A center booking (id 100) of host 1 at center 50 owned by user 2. *)
Definition booking (st : BOOKING_STATUS) (pay : string) : Booking :=
    mk_booking 100 "center" (Some "CTR-00000001-001") 1 2 None (Some 50%N) 0
      (Some 80) (Some 500) 500 pay "escrow" 0 500 st
      [mk_status_entry st 1 0 "Booking created"] None false None.

Definition center : EventCenter :=
    mk_center 50 2 true "verified" 10 200
      [mk_booked_date 0 (day_ms - 1) (Some 100%N);
       mk_booked_date day_ms (2 * day_ms - 1) (Some 7%N)]
      [mk_blocked_date (3 * day_ms) (4 * day_ms - 1) (Some "maintenance")].

Definition db (st : BOOKING_STATUS) (pay : string) : DB :=
    mk_db (booking st pay) [center] [mk_escrow 100 500 "held"] [].
End Sample.

Example update_confirm_marks_day :
  update_status Sample.env0 Sample.owner_user (Some "confirmed") None
    (Sample.db PENDING "pending")
  = (Success OK,
     mk_db (set_balanceDue (push_status (Sample.booking PENDING "pending") CONFIRMED 2 1000
                              "Status changed to confirmed") 500)
       [set_bookedDates Sample.center
          (bookedDates Sample.center ++ [mk_booked_date 0 (day_ms - 1) (Some 100%N)])%list]
       [mk_escrow 100 500 "held"] []).
Proof. reflexivity. Qed.

Example cancel_frees_day :
  db_centers (snd (cancel_booking Sample.env0 Sample.host None
                     (Sample.db CONFIRMED "pending")))
  = [set_bookedDates Sample.center [mk_booked_date day_ms (2 * day_ms - 1) (Some 7%N)]].
Proof. reflexivity. Qed.

Example availability_sample :
  get_availability (Some (3 * day_ms + 5)) (Some (3 * day_ms + 6)) (Some Sample.center)
  = AvailabilityOk false (Some "Blocked by owner").
Proof. reflexivity. Qed.

(** ** Lemmas about the building blocks *)

Lemma parse_status_value (st : BOOKING_STATUS) :
  parse_status (status_value st) = Some st.
Proof. destruct st; reflexivity. Qed.

Lemma parse_status_inv (s : string) (st : BOOKING_STATUS) :
  parse_status s = Some st -> s = status_value st.
Proof.
  unfold parse_status.
  destruct (String.eqb_spec s "pending"); [intros H; inversion H; subst; reflexivity|].
  destruct (String.eqb_spec s "confirmed"); [intros H; inversion H; subst; reflexivity|].
  destruct (String.eqb_spec s "cancelled"); [intros H; inversion H; subst; reflexivity|].
  destruct (String.eqb_spec s "completed"); [intros H; inversion H; subst; reflexivity|].
  discriminate.
Qed.

Lemma status_value_nonempty (st : BOOKING_STATUS) :
  String.eqb (status_value st) "" = false.
Proof. destruct st; reflexivity. Qed.

Lemma status_eqb_true (a b : BOOKING_STATUS) : status_eqb a b = true <-> a = b.
Proof. destruct a, b; simpl; split; congruence. Qed.

Lemma mongoose_save_some (r : string) (b b' : Booking) :
  mongoose_save r b = Some b' ->
  bookingSchema_valid b = true /\
  b' = preSave_balanceDue (preSave_bookingNumber r b).
Proof.
  unfold mongoose_save. destruct (bookingSchema_valid b); intros H; inversion H; auto.
Qed.

(** Saving changes only [bookingNumber] (when missing) and [balanceDue]. *)
Lemma mongoose_save_fields (r : string) (b b' : Booking) :
  mongoose_save r b = Some b' ->
  b_id b' = b_id b /\ customer b' = customer b /\ status b' = status b
  /\ statusHistory b' = statusHistory b /\ totalAmount b' = totalAmount b
  /\ depositPaid b' = depositPaid b /\ balanceDue b' = totalAmount b - depositPaid b
  /\ paymentStatus b' = paymentStatus b /\ paymentMethod b' = paymentMethod b
  /\ reviewed b' = reviewed b /\ review b' = review b.
Proof.
  intros H. apply mongoose_save_some in H as [_ ->].
  unfold preSave_balanceDue, preSave_bookingNumber.
  destruct (nonempty (bookingNumber b)); simpl; repeat split.
Qed.

(** Case analysis on the conditionals and option/pair matches in the
    hypotheses, closing the contradictory branches. *)
Ltac break_any :=
  repeat (match goal with
  | H : context [if ?c then _ else _] |- _ => let E := fresh "E" in destruct c eqn:E
  | H : context [match ?x with Some _ => _ | None => _ end] |- _ =>
      let E := fresh "E" in destruct x eqn:E
  | H : context [match ?x with (_, _) => _ end] |- _ => destruct x
  | H : Some _ = Some _ |- _ => injection H as H
  | H : (_, _) = (_, _) |- _ => injection H as H
  end; try discriminate).

Lemma release_center_dates_booking (b : Booking) (cs cs' : list EventCenter) :
  release_center_dates b cs = Some cs' ->
  Forall (fun c => In c cs \/ exists ec l, In ec cs /\ c = set_bookedDates ec l) cs'.
Proof.
  unfold release_center_dates.
  destruct (String.eqb (bookingType b) "center").
  2:{ intros H; inversion H; subst. apply Forall_forall; auto. }
  destruct (findCenter (eventCenter b) cs) as [ec|] eqn:Hf.
  2:{ intros H; inversion H; subst. apply Forall_forall; auto. }
  destruct (filter_bookedDates (b_id b) (bookedDates ec)) as [l|]; [|discriminate].
  intros H; inversion H; subst. apply Forall_forall. intros c Hc.
  unfold save_center in Hc. apply in_map_iff in Hc as [c' [Hc' Hin]].
  destruct (N.eqb (ec_id c') (ec_id (set_bookedDates ec l))); subst; [right|left; auto].
  exists ec, l. split; [|reflexivity].
  unfold findCenter in Hf. destruct (eventCenter b); [|discriminate].
  apply find_some in Hf. tauto.
Qed.

(** The shape of a successful status update: the guards passed, and the
    saved booking is the updated one (with cancellation details when the
    new status is [CANCELLED]). *)
Lemma update_status_success_shape (e : env) (u : User) (s r : option string)
  (db db' : DB) (c : Z) :
  update_status e u s r db = (Success c, db') ->
  exists st b2,
    s = Some (status_value st)
    /\ transition_allowed (status (db_booking db)) st = true
    /\ is_party u (db_booking db) = true
    /\ mongoose_save (random_number e) b2 = Some (db_booking db')
    /\ (b2 = push_status (db_booking db) st (user_id u) (now e)
               (or_default r ("Status changed to " ++ status_value st))
        \/ exists cc, b2 = set_cancellation
               (push_status (db_booking db) st (user_id u) (now e)
                  (or_default r ("Status changed to " ++ status_value st))) cc)
    /\ db_escrow db' = db_escrow db
    /\ db_reviews db' = db_reviews db.
Proof.
  unfold update_status. intros H.
  destruct s as [s|]; [|discriminate].
  destruct (String.eqb s "") eqn:Es; [discriminate|].
  destruct (parse_status s) as [st|] eqn:Ep; [|discriminate].
  apply parse_status_inv in Ep. subst s.
  unfold is_party.
  destruct (N.eqb (customer (db_booking db)) (user_id u)),
           (N.eqb (provider (db_booking db)) (user_id u)),
           (String.eqb (role u) ADMIN); simpl in H; try discriminate;
  destruct (transition_allowed (status (db_booking db)) st) eqn:Et; simpl in H;
    try discriminate.
  all: cbv zeta in H; break_any; subst.
  all: eexists; eexists; split; [reflexivity|]; split; [assumption|];
       split; [reflexivity|]; split; [simpl; eassumption|];
       split; [first [left; reflexivity | right; eexists; reflexivity]|];
       simpl; split; reflexivity.
Qed.

Lemma transition_allowed_table (a b : BOOKING_STATUS) :
  transition_allowed a b = true <->
  (a, b) = (PENDING, CONFIRMED) \/ (a, b) = (PENDING, CANCELLED)
  \/ (a, b) = (CONFIRMED, COMPLETED) \/ (a, b) = (CONFIRMED, CANCELLED).
Proof.
  destruct a, b; simpl; split; intros H; try discriminate;
    repeat destruct H as [H|H]; try discriminate; auto 10.
Qed.

(** The booking written by a successful status update carries the
    requested status and the history with one entry appended for it. *)
Lemma update_status_success_booking (e : env) (u : User) (s r : option string)
  (db db' : DB) (c : Z) :
  update_status e u s r db = (Success c, db') ->
  exists st,
    s = Some (status_value st)
    /\ transition_allowed (status (db_booking db)) st = true
    /\ status (db_booking db') = st
    /\ statusHistory (db_booking db') =
         (statusHistory (db_booking db)
          ++ [mk_status_entry st (user_id u) (now e)
                (or_default r ("Status changed to " ++ status_value st))])%list
    /\ paymentStatus (db_booking db') = paymentStatus (db_booking db)
    /\ paymentMethod (db_booking db') = paymentMethod (db_booking db)
    /\ depositPaid (db_booking db') = depositPaid (db_booking db)
    /\ db_escrow db' = db_escrow db.
Proof.
  intros H. apply update_status_success_shape in H
    as (st & b2 & Hs & Ht & _ & Hsave & Hb2 & Hesc & _).
  exists st. apply mongoose_save_fields in Hsave.
  destruct Hsave as (_ & _ & Hst & Hh & _ & Hd & _ & Hps & Hpm & _).
  rewrite Hst, Hh, Hd, Hps, Hpm.
  destruct Hb2 as [-> | [cc ->]]; repeat split; auto.
Qed.

(** ** C1: the status-transition guard *)

(** C1 (amended).  For every booking, requester and requested status: a
    status update that succeeds moves the booking along one of
    pending->confirmed, pending->cancelled, confirmed->completed,
    confirmed->cancelled and writes the requested status; a requested
    status outside the table from the current one is rejected and the
    database is left unchanged, with 400 when the requester is the
    booking's customer, its provider or an admin, and with 403 (the
    authorization check that precedes the table) otherwise. *)
Theorem update_status_transition_table (e : env) (u : User) (r : option string)
  (db : DB) (st : BOOKING_STATUS) :
  (transition_allowed (status (db_booking db)) st = false ->
   update_status e u (Some (status_value st)) r db =
     (Failure (if is_party u (db_booking db) then BAD_REQUEST else FORBIDDEN), db))
  /\ (forall (s : option string) (c : Z) (db' : DB),
        update_status e u s r db = (Success c, db') ->
        exists st',
          s = Some (status_value st')
          /\ ((status (db_booking db), st') = (PENDING, CONFIRMED)
              \/ (status (db_booking db), st') = (PENDING, CANCELLED)
              \/ (status (db_booking db), st') = (CONFIRMED, COMPLETED)
              \/ (status (db_booking db), st') = (CONFIRMED, CANCELLED))
          /\ status (db_booking db') = st').
Proof.
  split.
  - intros Ht. unfold update_status.
    rewrite status_value_nonempty, parse_status_value. cbv zeta.
    rewrite Ht. unfold is_party.
    destruct (N.eqb (customer (db_booking db)) (user_id u)),
             (N.eqb (provider (db_booking db)) (user_id u)),
             (String.eqb (role u) ADMIN); reflexivity.
  - intros s c db' H.
    apply update_status_success_booking in H as (st' & Hs & Ht & Hst & _).
    exists st'. apply transition_allowed_table in Ht. auto.
Qed.

(** C1 counterexample: a stranger asking to move a completed booking back
    to pending is rejected with 403, not 400. *)
Lemma update_status_outside_table_403 :
  transition_allowed COMPLETED PENDING = false
  /\ update_status Sample.env0 Sample.stranger (Some "pending") None
       (Sample.db COMPLETED "completed")
     = (Failure FORBIDDEN, Sample.db COMPLETED "completed")
  /\ FORBIDDEN <> BAD_REQUEST.
Proof. split; [reflexivity|]. split; [reflexivity|]. discriminate. Qed.

(** ** C2: availability by a linear scan over stored ranges *)

(** Some stored range [s, e] of the center, booked or blocked, satisfies
    [start <= e] and [end >= s]. *)
Definition overlapping_entry (c : EventCenter) (start end_ : Z) : Prop :=
  (exists d, In d (bookedDates c) /\ start <= bd_endDate d /\ end_ >= bd_startDate d)
  \/ (exists d, In d (blockedDates c) /\ start <= bl_endDate d /\ end_ >= bl_startDate d).

Lemma overlaps_true (start end_ s e : Z) :
  overlaps start end_ s e = true <-> start <= e /\ end_ >= s.
Proof.
  unfold overlaps. rewrite andb_true_iff, Z.leb_le, Z.geb_le. lia.
Qed.

Lemma booked_or_blocked (c : EventCenter) (start end_ : Z) :
  isBooked c start end_ || isBlocked c start end_ = true
  <-> overlapping_entry c start end_.
Proof.
  unfold isBooked, isBlocked, overlapping_entry.
  rewrite orb_true_iff, !existsb_exists.
  split; intros [(d & Hin & Hd)|(d & Hin & Hd)];
    [left|right|left|right]; exists d; rewrite ?overlaps_true in *; tauto.
Qed.

(** The center branch of POST /api/bookings runs [center_booking_checks]
    once the center is found, active and verified. *)
Lemma create_booking_center_checks (e : env) (u : User) (new_id : N)
  (sps : list ServiceProvider) (centers : list EventCenter) (rq : CreateRequest)
  (ec : EventCenter) (d : Z) (code : Z) :
  rq_bookingType rq = Some "center" ->
  rq_eventDate rq = Some d ->
  nonempty (rq_startTime rq) = true -> nonempty (rq_endTime rq) = true ->
  truthy_num (rq_totalAmount rq) = true ->
  findCenter (rq_eventCenterId rq) centers = Some ec ->
  isActive ec = true -> verificationStatus ec = "verified" ->
  center_booking_checks (tz_offset e) ec d (rq_guestCount rq) = Some code ->
  create_booking e u new_id sps centers rq = (Failure code, None).
Proof.
  intros Hbt Hd Hs He Ht Hf Ha Hv Hc.
  unfold create_booking. rewrite Hbt, Hd, Hs, He, Ht. simpl.
  destruct (rq_eventCenterId rq) as [cid|] eqn:Hid; [|discriminate].
  unfold findCenter in Hf. rewrite Hf, Ha, Hv. simpl. rewrite Hc. reflexivity.
Qed.

(** C2.  For every event center and queried range [start, end], the
    availability route answers, and reports the center unavailable exactly
    when some entry [s, e] of [bookedDates] or [blockedDates] has
    [start <= e] and [end >= s]; the booking-creation check (on the range
    from the event date to the end of its day) answers 409 exactly under
    the same condition. *)
Theorem center_availability_scan (c : EventCenter) (start end_ : Z)
  (tz eventDate : Z) (g : option Z) :
  (exists isAvailable reason,
      get_availability (Some start) (Some end_) (Some c)
      = AvailabilityOk isAvailable reason
      /\ (isAvailable = false <-> overlapping_entry c start end_))
  /\ (center_booking_checks tz c eventDate g = Some CONFLICT
      <-> overlapping_entry c eventDate (end_of_day tz eventDate)).
Proof.
  split.
  - eexists; eexists; split; [reflexivity|].
    rewrite <- booked_or_blocked.
    destruct (isBooked c start end_), (isBlocked c start end_); simpl; split;
      congruence.
  - rewrite <- booked_or_blocked. unfold center_booking_checks. cbv zeta.
    destruct (isBooked c eventDate (end_of_day tz eventDate)
              || isBlocked c eventDate (end_of_day tz eventDate)).
    + split; reflexivity.
    + split; [|discriminate].
      destruct g as [n|]; [|discriminate].
      destruct (negb (n =? 0)); [|discriminate].
      destruct ((n <? capacity_minimum c) || (n >? capacity_maximum c)); discriminate.
Qed.

(** ** C3: CAC verification and POST /api/centers *)

Module CenterListingFacts.
  Import CenterListing.

Definition uncertified : UserDoc :=
    mk_userdoc 2 CENTER false [("centerName", JStr "Hall"); ("cacVerified", JBool false)]
      (Some "08012345678").

  (** A center-role user with no event center yet and no CAC flag set. *)
Definition newcomer : UserDoc :=
    mk_userdoc 4 CENTER false [] (Some "08087654321").

Definition listings0 : list Listing :=
    [mk_listing 50 2 None (Some "08012345678") (Some "Hall") (Some "Banquet Hall");
     mk_listing 60 3 None None (Some "Annex") None].

Definition grand_hall : Body := mk_body (Some "Grand Hall") None None.

  (** C3 (code bug).  For two center-role users whose
      [centerProfile.cacVerified] is false, the CAC-checking handler answers
      403 and creates nothing, while the image-upload handler answers 201:
      it updates the existing center of the first user and creates one for
      the second. *)
Theorem center_listing_without_cac :
    ud_role uncertified = CENTER
    /\ truthy (centerProfile_get uncertified "cacVerified") = false
    /\ create_center_listing uncertified 70 grand_hall listings0
       = (Failure FORBIDDEN, listings0)
    /\ create_center_with_images uncertified 70 grand_hall listings0
       = (Success CREATED,
          [mk_listing 50 2 (Some "Grand Hall") (Some "08012345678") (Some "Hall")
             (Some "Banquet Hall");
           mk_listing 60 3 None None (Some "Annex") None])
    /\ ud_role newcomer = CENTER
    /\ truthy (centerProfile_get newcomer "cacVerified") = false
    /\ create_center_listing newcomer 71 grand_hall listings0
       = (Failure FORBIDDEN, listings0)
    /\ create_center_with_images newcomer 71 grand_hall listings0
       = (Success CREATED,
          (listings0 ++ [mk_listing 71 4 (Some "Grand Hall") (Some "08087654321")
                           (Some "Grand Hall") None])%list).
  Proof. vm_compute. repeat split. Qed.

End CenterListingFacts.

(** ** C4: [balanceDue] bookkeeping on save *)

(** After every save, [balanceDue = pricing.totalAmount - depositPaid]. *)
Lemma save_sets_balanceDue (r : string) (b b' : Booking) :
  mongoose_save r b = Some b' -> balanceDue b' = totalAmount b' - depositPaid b'.
Proof.
  intros H. apply mongoose_save_fields in H.
  destruct H as (_ & _ & _ & _ & Ht & Hd & Hbd & _). rewrite Hbd, Ht, Hd. reflexivity.
Qed.

(** A booking whose deposit (150) exceeds its total (100). *)
Definition overpaid_booking : Booking :=
  mk_booking 101 "center" (Some "CTR-00000002-002") 1 2 None (Some 50%N) 0
    None (Some 100) 100 "partial" "escrow" 150 0 PENDING
    [mk_status_entry PENDING 1 0 "Booking created"] None false None.

(** C4 failing input: the save validates [balanceDue] before the hook
    computes it, so the overpaid booking is written with [balanceDue = -50]
    although the schema declares [min: 0] for it. *)
Lemma save_accepts_deposit_above_total :
  depositPaid overpaid_booking > totalAmount overpaid_booking
  /\ exists b', mongoose_save "123" overpaid_booking = Some b' /\ balanceDue b' = -50.
Proof. split; [reflexivity|]. eexists; split; reflexivity. Qed.

(** ** C5: the host dashboard's [totalSpent] *)

Definition sum_amounts (l : list Booking) : Z :=
  fold_right (fun b acc => totalAmount b + acc) 0 l.

Lemma fold_left_sum (l : list Booking) (acc : Z) :
  fold_left (fun acc b => acc + totalAmount b) l acc = acc + sum_amounts l.
Proof.
  revert acc. induction l as [|b l IH]; intros acc; simpl.
  - lia.
  - rewrite IH. lia.
Qed.

(** C5.  For every user, [totalSpent] is the sum of [pricing.totalAmount]
    over exactly the bookings whose customer is the user, whose status is
    completed and whose payment status is completed or partial; it is 0
    when no booking matches. *)
Theorem host_totalSpent_sum (userId : N) (bookings : list Booking) :
  let matching :=
    filter (fun b => N.eqb (customer b) userId
                     && status_eqb (status b) COMPLETED
                     && (String.eqb (paymentStatus b) "completed"
                         || String.eqb (paymentStatus b) "partial")) bookings in
  host_totalSpent userId bookings = sum_amounts matching
  /\ (matching = [] -> host_totalSpent userId bookings = 0).
Proof.
  cbv zeta.
  assert (Hf : filter (spent_match userId) bookings =
               filter (fun b => N.eqb (customer b) userId
                     && status_eqb (status b) COMPLETED
                     && (String.eqb (paymentStatus b) "completed"
                         || String.eqb (paymentStatus b) "partial")) bookings).
  { apply filter_ext. intros b. unfold spent_match, includes. simpl.
    rewrite orb_false_r. reflexivity. }
  rewrite <- Hf. unfold host_totalSpent.
  destruct (filter (spent_match userId) bookings) as [|b l]; simpl.
  - split; reflexivity.
  - split; [|discriminate]. rewrite fold_left_sum. simpl. lia.
Qed.

(** ** C6: capacity bounds at booking time *)

(** A center booking request for [day] (milliseconds) with [guests]. *)
Definition center_request (day : Z) (guests : option Z) : CreateRequest :=
  mk_create_req (Some "center") None (Some 50%N) (Some day) (Some "10:00")
    (Some "18:00") guests (Some 1000) (Some 1000) None.

(** C6 counterexample: 500 guests exceed the maximum of 200, but the day
    is blocked, so the request fails with 409 from the availability check
    that precedes the capacity check. *)
Lemma capacity_violation_reported_as_conflict :
  capacity_maximum Sample.center < 500
  /\ create_booking Sample.env0 Sample.host 101 [] [Sample.center]
       (center_request (3 * day_ms + 1000) (Some 500))
     = (Failure CONFLICT, None)
  /\ CONFLICT <> BAD_REQUEST.
Proof. split; [reflexivity|]. split; [reflexivity|]. discriminate. Qed.

(** C6 (amended).  Once a center booking reaches the capacity check (the
    center is found, active and verified and the day overlaps no booked or
    blocked range): without a guest count the check passes; with a non-zero
    guest count [n] it fails with 400 exactly when
    [n < capacity.minimum] or [n > capacity.maximum], and passes exactly when
    [capacity.minimum <= n <= capacity.maximum]; such a failure is the
    answer of POST /api/bookings.  A request whose day is already booked or
    blocked fails with 409 before capacity is checked, whatever its guest
    count. *)
Theorem capacity_check_bounds (tz : Z) (ec : EventCenter) (d : Z) :
  (isBooked ec d (end_of_day tz d) || isBlocked ec d (end_of_day tz d) = false ->
   center_booking_checks tz ec d None = None
   /\ (forall n, n <> 0 ->
       (center_booking_checks tz ec d (Some n) = Some BAD_REQUEST
        <-> n < capacity_minimum ec \/ n > capacity_maximum ec)
       /\ (center_booking_checks tz ec d (Some n) = None
           <-> capacity_minimum ec <= n <= capacity_maximum ec))
   /\ (forall e u new_id sps centers rq n,
       tz_offset e = tz -> rq_bookingType rq = Some "center" ->
       rq_eventDate rq = Some d ->
       nonempty (rq_startTime rq) = true -> nonempty (rq_endTime rq) = true ->
       truthy_num (rq_totalAmount rq) = true ->
       findCenter (rq_eventCenterId rq) centers = Some ec ->
       isActive ec = true -> verificationStatus ec = "verified" ->
       rq_guestCount rq = Some n -> n <> 0 ->
       n < capacity_minimum ec \/ n > capacity_maximum ec ->
       create_booking e u new_id sps centers rq = (Failure BAD_REQUEST, None)))
  /\ (isBooked ec d (end_of_day tz d) || isBlocked ec d (end_of_day tz d) = true ->
      (forall g, center_booking_checks tz ec d g = Some CONFLICT)
      /\ (forall e u new_id sps centers rq,
          tz_offset e = tz -> rq_bookingType rq = Some "center" ->
          rq_eventDate rq = Some d ->
          nonempty (rq_startTime rq) = true -> nonempty (rq_endTime rq) = true ->
          truthy_num (rq_totalAmount rq) = true ->
          findCenter (rq_eventCenterId rq) centers = Some ec ->
          isActive ec = true -> verificationStatus ec = "verified" ->
          create_booking e u new_id sps centers rq = (Failure CONFLICT, None))).
Proof.
  split.
  - intros Hfree.
    assert (Hn : forall n, n <> 0 ->
        (center_booking_checks tz ec d (Some n) = Some BAD_REQUEST
         <-> n < capacity_minimum ec \/ n > capacity_maximum ec)
        /\ (center_booking_checks tz ec d (Some n) = None
            <-> capacity_minimum ec <= n <= capacity_maximum ec)).
    { intros n Hn0. unfold center_booking_checks. cbv zeta. rewrite Hfree.
      assert (Hz : negb (n =? 0) = true) by (apply negb_true_iff, Z.eqb_neq; exact Hn0).
      rewrite Hz.
      destruct ((n <? capacity_minimum ec) || (n >? capacity_maximum ec)) eqn:Hc;
        rewrite orb_true_iff, Z.ltb_lt, Z.gtb_lt in Hc || rewrite orb_false_iff, Z.ltb_ge, Z.gtb_ltb, Z.ltb_ge in Hc;
        split; split; intros H; try discriminate; try reflexivity; lia. }
    split; [|split; [exact Hn|]].
    + unfold center_booking_checks. cbv zeta. rewrite Hfree. reflexivity.
    + intros e u new_id sps centers rq n Htz Hbt Hd Hs He Ht Hf Ha Hv Hg Hn0 Hout.
      apply (create_booking_center_checks e u new_id sps centers rq ec d); auto.
      rewrite Htz, Hg. apply (proj1 (Hn n Hn0)). exact Hout.
  - intros Hbusy.
    assert (Hc : forall g, center_booking_checks tz ec d g = Some CONFLICT).
    { intros g. unfold center_booking_checks. cbv zeta. rewrite Hbusy. reflexivity. }
    split; [exact Hc|].
    intros e u new_id sps centers rq Htz Hbt Hd Hs He Ht Hf Ha Hv.
    apply (create_booking_center_checks e u new_id sps centers rq ec d); auto.
    rewrite Htz. apply Hc.
Qed.

Lemma capacity_check_bounds_witness :
  center_booking_checks 0 Sample.center (10 * day_ms) (Some 500) = Some BAD_REQUEST
  /\ center_booking_checks 0 Sample.center (3 * day_ms) (Some 500) = Some CONFLICT.
Proof.
  split.
  - apply (proj2 (proj1 (proj1 (proj2 (proj1 (capacity_check_bounds 0 Sample.center
             (10 * day_ms)) eq_refl)) 500 ltac:(discriminate)))).
    right. reflexivity.
  - exact (proj1 (proj2 (capacity_check_bounds 0 Sample.center (3 * day_ms)) eq_refl)
             (Some 500)).
Defined.

(** ** C7: escrow payments *)

(** Case analysis on the conditionals and matches of the goal. *)
Ltac break_goal :=
  repeat match goal with
  | |- context [if ?c then _ else _] => destruct c
  | |- context [match ?x with Some _ => _ | None => _ end] => destruct x
  | |- context [match ?x with (_, _) => _ end] => destruct x
  end.

Lemma update_status_escrow (e : env) (u : User) (s r : option string) (db : DB) :
  db_escrow (snd (update_status e u s r db)) = db_escrow db.
Proof. unfold update_status. cbv zeta. break_goal; reflexivity. Qed.

Lemma cancel_booking_escrow (e : env) (u : User) (r : option string) (db : DB) :
  db_escrow (snd (cancel_booking e u r db)) = db_escrow db.
Proof. unfold cancel_booking. cbv zeta. break_goal; reflexivity. Qed.

(** A successful cancellation through DELETE writes [CANCELLED], appends
    one history entry for it and keeps the payment fields. *)
Lemma cancel_booking_success (e : env) (u : User) (r : option string) (db db' : DB)
  (c : Z) :
  cancel_booking e u r db = (Success c, db') ->
  is_party u (db_booking db) = true
  /\ status (db_booking db) <> CANCELLED /\ status (db_booking db) <> COMPLETED
  /\ status (db_booking db') = CANCELLED
  /\ statusHistory (db_booking db') =
       (statusHistory (db_booking db)
        ++ [mk_status_entry CANCELLED (user_id u) (now e)
              (or_default r "Booking cancelled")])%list
  /\ b_id (db_booking db') = b_id (db_booking db)
  /\ paymentStatus (db_booking db') = paymentStatus (db_booking db)
  /\ paymentMethod (db_booking db') = paymentMethod (db_booking db)
  /\ depositPaid (db_booking db') = depositPaid (db_booking db).
Proof.
  unfold cancel_booking. cbv zeta. intros H.
  destruct (is_party u (db_booking db)) eqn:Hp; [|discriminate]. simpl in H.
  destruct (status_eqb (status (db_booking db)) CANCELLED) eqn:Hc; [discriminate|].
  destruct (status_eqb (status (db_booking db)) COMPLETED) eqn:Hm; [discriminate|].
  break_any. subst. simpl.
  match goal with
  | Hs : mongoose_save _ _ = Some _ |- _ =>
      apply mongoose_save_fields in Hs;
      destruct Hs as (Hi & _ & Hst & Hh & _ & Hd & _ & Hps & Hpm & _)
  end.
  rewrite Hi, Hst, Hh, Hd, Hps, Hpm. simpl.
  repeat split; try reflexivity.
  - intros Heq. rewrite Heq in Hc. discriminate.
  - intros Heq. rewrite Heq in Hm. discriminate.
Qed.

(** Release of escrow funds at completion, stated on this model: a successful
    update that completes an escrow booking marks its escrow transactions
    released. *)
Definition escrow_released_on_completion : Prop :=
  forall e u s r db c db',
    update_status e u s r db = (Success c, db') ->
    status (db_booking db') = COMPLETED ->
    paymentMethod (db_booking db') = "escrow" ->
    forall t, In t (db_escrow db') -> et_booking t = b_id (db_booking db') ->
    et_status t = "released".

(** C7 counterexample: the provider completes a paid escrow booking; the
    update succeeds and the booking's escrow transaction is still "held". *)
Lemma escrow_not_released_on_completion :
  (exists db',
     update_status Sample.env0 Sample.owner_user (Some "completed") None
       (Sample.db CONFIRMED "completed") = (Success OK, db')
     /\ status (db_booking db') = COMPLETED
     /\ paymentMethod (db_booking db') = "escrow"
     /\ db_escrow db' = [mk_escrow 100 500 "held"])
  /\ ~ escrow_released_on_completion.
Proof.
  split.
  - eexists. split; [reflexivity|]. repeat split.
  - intros H.
    assert (Hr := H Sample.env0 Sample.owner_user (Some "completed") None
                    (Sample.db CONFIRMED "completed") OK
                    (snd (update_status Sample.env0 Sample.owner_user (Some "completed")
                            None (Sample.db CONFIRMED "completed")))
                    eq_refl eq_refl eq_refl (mk_escrow 100 500 "held")
                    (or_introl eq_refl) eq_refl).
    discriminate Hr.
Qed.

(** C7 (amended).  [paymentMethod] "escrow" is only recorded on the
    booking: the status-update route (including completion) and the
    cancellation route leave every escrow transaction unchanged, and a
    successful update or cancellation leaves the booking's
    [paymentStatus], [paymentMethod] and [depositPaid] unchanged; no booking
    operation releases funds to the provider or refunds them. *)
Theorem booking_routes_never_move_funds (e : env) (u : User) (s r : option string)
  (db : DB) :
  db_escrow (snd (update_status e u s r db)) = db_escrow db
  /\ db_escrow (snd (cancel_booking e u r db)) = db_escrow db
  /\ (forall c db', update_status e u s r db = (Success c, db') ->
        paymentStatus (db_booking db') = paymentStatus (db_booking db)
        /\ paymentMethod (db_booking db') = paymentMethod (db_booking db)
        /\ depositPaid (db_booking db') = depositPaid (db_booking db))
  /\ (forall c db', cancel_booking e u r db = (Success c, db') ->
        paymentStatus (db_booking db') = paymentStatus (db_booking db)
        /\ paymentMethod (db_booking db') = paymentMethod (db_booking db)
        /\ depositPaid (db_booking db') = depositPaid (db_booking db)).
Proof.
  split; [apply update_status_escrow|].
  split; [apply cancel_booking_escrow|].
  split.
  - intros c db' H. apply update_status_success_booking in H
      as (st & _ & _ & _ & _ & Hps & Hpm & Hd & _). auto.
  - intros c db' H. apply cancel_booking_success in H
      as (_ & _ & _ & _ & _ & _ & Hps & Hpm & Hd). auto.
Qed.

(** ** C8: cancellation and the center's booked dates *)

(** [bookedDates.filter(...)] on entries that all carry a booking id. *)
Definition keep_other_bookings (id : N) (d : booked_date) : bool :=
  match bd_booking d with Some x => negb (N.eqb x id) | None => true end.

Lemma filter_bookedDates_linked (id : N) (l : list booked_date) :
  Forall (fun d => bd_booking d <> None) l ->
  filter_bookedDates id l = Some (filter (keep_other_bookings id) l).
Proof.
  induction l as [|d l IH]; intros Hall; [reflexivity|].
  inversion Hall as [|? ? Hd Hl]; subst. simpl.
  destruct (bd_booking d) as [x|] eqn:Hb; [|congruence].
  assert (Hk : keep_other_bookings id d = negb (N.eqb x id))
    by (unfold keep_other_bookings; rewrite Hb; reflexivity).
  rewrite (IH Hl), Hk. reflexivity.
Qed.

Lemma filter_bookedDates_some (id : N) (l l' : list booked_date) :
  filter_bookedDates id l = Some l' -> l' = filter (keep_other_bookings id) l.
Proof.
  revert l'. induction l as [|d l IH]; intros l' H; simpl in H.
  - inversion H. reflexivity.
  - destruct (bd_booking d) as [x|] eqn:Hd; [|discriminate].
    destruct (filter_bookedDates id l) as [r|] eqn:Hr; [|discriminate].
    inversion H; subst. simpl.
    assert (Hk : keep_other_bookings id d = negb (N.eqb x id))
      by (unfold keep_other_bookings; rewrite Hd; reflexivity).
    rewrite Hk, (IH r eq_refl). reflexivity.
Qed.

(** A center whose booked dates also hold an entry without a booking id,
    as [PUT /api/centers/:centerId] accepts ([booking] is optional). *)
Definition center_with_unlinked_entry : EventCenter :=
  mk_center 50 2 true "verified" 10 200
    [mk_booked_date 0 (day_ms - 1) (Some 100%N);
     mk_booked_date (5 * day_ms) (6 * day_ms - 1) None]
    [mk_blocked_date (3 * day_ms) (4 * day_ms - 1) (Some "maintenance")].

Definition db_unlinked : DB :=
  mk_db (Sample.booking CONFIRMED "pending") [center_with_unlinked_entry] [] [].

(** C8 failing input: cancelling the confirmed center booking 100, by
    DELETE or by the status route, throws in the filter
    ([undefined.toString()]): its own booked-date entry is not removed and
    the booking stays confirmed. *)
Lemma cancel_with_unlinked_entry_throws :
  cancel_booking Sample.env0 Sample.host None db_unlinked = (Thrown, db_unlinked)
  /\ update_status Sample.env0 Sample.host (Some "cancelled") None db_unlinked
     = (Thrown, db_unlinked)
  /\ In (mk_booked_date 0 (day_ms - 1) (Some 100%N))
        (bookedDates center_with_unlinked_entry).
Proof. split; [reflexivity|]. split; [reflexivity|]. left. reflexivity. Qed.

(** ** C9: one review per booking *)

(** The reviews stored for booking [bid]. *)
Definition reviews_of (bid : N) (rs : list Review) : list Review :=
  filter (fun r => N.eqb (rv_booking r) bid) rs.

(** Every stored review of booking [bid] is by [cust], and there is at
    most one. *)
Definition reviews_ok (bid cust : N) (rs : list Review) : Prop :=
  Forall (fun r => rv_reviewer r = cust) (reviews_of bid rs)
  /\ (length (reviews_of bid rs) <= 1)%nat.

Definition review_inv (db : DB) : Prop :=
  reviews_ok (b_id (db_booking db)) (customer (db_booking db)) (db_reviews db).

Lemma review_create_ok (bid cust id : N) (o : Z) (rs rs' : list Review) :
  reviews_ok bid cust rs ->
  review_create rs (mk_review id bid cust o) = Some rs' ->
  reviews_ok bid cust rs'.
Proof.
  unfold review_create. intros [Hf Hl] H. simpl in H.
  destruct ((o <? 1) || (5 <? o)); [discriminate|].
  destruct (existsb _ rs) eqn:He; [discriminate|].
  injection H as <-.
  assert (E : reviews_of bid rs = []%list).
  { destruct (reviews_of bid rs) as [|x xs] eqn:Ex; [reflexivity|]. exfalso.
    assert (Hx : In x (reviews_of bid rs)) by (rewrite Ex; left; reflexivity).
    unfold reviews_of in Hx. apply filter_In in Hx as [Hin Hb].
    inversion Hf as [|? ? Hxr _]; subst.
    assert (Ht : existsb (fun r => N.eqb (rv_booking r) bid
                                    && N.eqb (rv_reviewer r) (rv_reviewer x)) rs = true).
    { apply existsb_exists. exists x. split; [assumption|].
      rewrite Hb, N.eqb_refl. reflexivity. }
    rewrite He in Ht. discriminate. }
  unfold reviews_ok, reviews_of in *. rewrite filter_app, E. simpl.
  rewrite N.eqb_refl. simpl. split; [constructor; [reflexivity|constructor]|auto].
Qed.

(** Every request to the review route keeps [review_inv]. *)
Lemma create_review_inv (e : env) (u : User) (o : option Z) (id : N) (db : DB) :
  review_inv db -> review_inv (snd (create_review e u o id db)).
Proof.
  intros Hinv. unfold create_review. cbv zeta.
  destruct (N.eqb (customer (db_booking db)) (user_id u)) eqn:Hc;
    simpl; [|exact Hinv].
  destruct (status_eqb (status (db_booking db)) COMPLETED); simpl; [|exact Hinv].
  destruct (reviewed (db_booking db)); [exact Hinv|].
  destruct o as [o|]; [|exact Hinv]. destruct (o =? 0); [exact Hinv|].
  apply N.eqb_eq in Hc. rewrite <- Hc.
  destruct (review_create _ _) as [rs|] eqn:Hrc; [|exact Hinv].
  assert (Hok : reviews_ok (b_id (db_booking db)) (customer (db_booking db)) rs)
    by (eapply review_create_ok; eauto).
  destruct (mongoose_save _ _) as [b'|] eqn:Hs; simpl.
  - unfold review_inv. simpl. apply mongoose_save_fields in Hs.
    destruct Hs as (Hi & Hcu & _). rewrite Hi, Hcu. exact Hok.
  - exact Hok.
Qed.

(** C9 counterexample: after the host's review of the completed booking
    succeeds, a second request by another user is rejected with 403, not
    409. *)
Lemma second_review_by_stranger_403 :
  exists db',
    create_review Sample.env0 Sample.host (Some 5) 300%N (Sample.db COMPLETED "completed")
      = (Success CREATED, db')
    /\ create_review Sample.env0 Sample.stranger (Some 4) 301%N db'
      = (Failure FORBIDDEN, db')
    /\ FORBIDDEN <> CONFLICT.
Proof. eexists. split; [reflexivity|]. split; [reflexivity|]. discriminate. Qed.

(** C9 (amended).  A review request succeeds only when the requester is
    the booking's customer, the booking is completed and not yet reviewed;
    the success marks the booking reviewed and stores the new review's id.
    Every later review request for that booking leaves the database
    unchanged and fails: with 409 when it comes from the customer, with
    403 from anyone else.  Every request keeps the stored reviews of a
    booking at most one, all by its customer. *)
Theorem review_created_once (e : env) (u : User) (o : option Z) (id : N)
  (db db' : DB) (c : Z) :
  create_review e u o id db = (Success c, db') ->
  customer (db_booking db) = user_id u
  /\ status (db_booking db) = COMPLETED
  /\ reviewed (db_booking db) = false
  /\ reviewed (db_booking db') = true
  /\ review (db_booking db') = Some id
  /\ (forall e2 u2 o2 id2,
        create_review e2 u2 o2 id2 db'
        = (Failure (if N.eqb (customer (db_booking db)) (user_id u2)
                    then CONFLICT else FORBIDDEN), db'))
  /\ (forall e2 u2 o2 id2 d,
        review_inv d -> review_inv (snd (create_review e2 u2 o2 id2 d))).
Proof.
  unfold create_review at 1. cbv zeta. intros H.
  destruct (N.eqb (customer (db_booking db)) (user_id u)) eqn:Hc;
    simpl in H; [|discriminate].
  destruct (status_eqb (status (db_booking db)) COMPLETED) eqn:Hs;
    simpl in H; [|discriminate].
  destruct (reviewed (db_booking db)) eqn:Hr; [discriminate|].
  destruct o as [o|]; [|discriminate]. destruct (o =? 0); [discriminate|].
  destruct (review_create _ _) as [rs|]; [|discriminate].
  destruct (mongoose_save _ _) as [b'|] eqn:Hsv; [|discriminate].
  injection H as _ <-.
  apply mongoose_save_fields in Hsv.
  destruct Hsv as (_ & Hcu & Hst & _ & _ & _ & _ & _ & _ & Hrv & Hre).
  simpl in Hcu, Hst, Hrv, Hre.
  apply N.eqb_eq in Hc. apply status_eqb_true in Hs.
  split; [exact Hc|]. split; [exact Hs|]. split; [reflexivity|].
  split; [exact Hrv|]. split; [exact Hre|]. split.
  - intros e2 u2 o2 id2. unfold create_review. simpl.
    rewrite Hcu, Hst, Hs, Hrv. simpl.
    destruct (N.eqb (customer (db_booking db)) (user_id u2)); reflexivity.
  - intros. apply create_review_inv. assumption.
Qed.

Lemma review_created_once_witness :
  exists db',
    create_review Sample.env0 Sample.host (Some 5) 300%N (Sample.db COMPLETED "completed")
      = (Success CREATED, db')
    /\ reviewed (db_booking db') = true
    /\ review (db_booking db') = Some 300%N
    /\ create_review Sample.env0 Sample.stranger (Some 4) 301%N db'
       = (Failure FORBIDDEN, db').
Proof.
  destruct (review_created_once Sample.env0 Sample.host (Some 5) 300%N
              (Sample.db COMPLETED "completed") _ CREATED eq_refl)
    as (_ & _ & _ & Hr & Hv & Hn & _).
  eexists. split; [reflexivity|]. split; [exact Hr|]. split; [exact Hv|].
  apply Hn.
Defined.

(** ** C10: the status history *)

(** What an operation on a booking does to its history: a success writes
    a booking whose history is the old one with one entry appended for
    the new status, the acting user and the request time; any other
    outcome leaves the stored booking as it was. *)
Definition appends_one_entry (e : env) (u : User) (res : response)
  (b b' : Booking) : Prop :=
  match res with
  | Success _ =>
      exists x, statusHistory b' = (statusHistory b ++ [x])%list
        /\ se_status x = status b' /\ se_changedBy x = user_id u
        /\ se_changedAt x = now e
  | _ => b' = b
  end.

Lemma update_status_booking_cases (e : env) (u : User) (s r : option string)
  (db : DB) :
  (exists c, fst (update_status e u s r db) = Success c)
  \/ db_booking (snd (update_status e u s r db)) = db_booking db.
Proof.
  unfold update_status. cbv zeta. break_goal; simpl;
    first [left; eexists; reflexivity | right; reflexivity].
Qed.

Lemma cancel_booking_booking_cases (e : env) (u : User) (r : option string)
  (db : DB) :
  (exists c, fst (cancel_booking e u r db) = Success c)
  \/ db_booking (snd (cancel_booking e u r db)) = db_booking db.
Proof.
  unfold cancel_booking. cbv zeta. break_goal; simpl;
    first [left; eexists; reflexivity | right; reflexivity].
Qed.

(** [Booking.create(bookingData)] never stores the document: the required
    [bookingNumber] is generated only by a [pre("save")] hook, which runs
    after validation. *)
Lemma bookingData_not_saved (e : env) (u : User) (new_id : N) (bt : string)
  (prov : N) (rq : CreateRequest) (eventDate total : Z) (r : string) :
  mongoose_save r (bookingData e u new_id bt prov rq eventDate total) = None.
Proof.
  unfold mongoose_save, bookingSchema_valid. simpl.
  rewrite andb_false_r. reflexivity.
Qed.

(** C10.  The booking document built by [POST /api/bookings] has status
    pending and the single history entry for it, by the creating user at
    the request time, and saving keeps status and history; a status
    update and a cancellation by [DELETE] either succeed, writing the old
    history with exactly one entry appended that records the new status,
    the acting user and the time, or leave the stored booking unchanged.
    So the last history entry always carries the current status. *)
Theorem status_history_appends_one :
  (forall e u new_id bt prov rq eventDate total,
     status (bookingData e u new_id bt prov rq eventDate total) = PENDING
     /\ statusHistory (bookingData e u new_id bt prov rq eventDate total)
        = [mk_status_entry PENDING (user_id u) (now e) "Booking created"])
  /\ (forall r b b', mongoose_save r b = Some b' ->
        status b' = status b /\ statusHistory b' = statusHistory b)
  /\ (forall e u s r db,
        appends_one_entry e u (fst (update_status e u s r db))
          (db_booking db) (db_booking (snd (update_status e u s r db))))
  /\ (forall e u r db,
        appends_one_entry e u (fst (cancel_booking e u r db))
          (db_booking db) (db_booking (snd (cancel_booking e u r db)))).
Proof.
  split; [intros; split; reflexivity|].
  split.
  { intros r b b' H. apply mongoose_save_fields in H.
    destruct H as (_ & _ & Hs & Hh & _). auto. }
  split.
  - intros e u s r db.
    pose proof (update_status_booking_cases e u s r db) as Hcases.
    destruct (update_status e u s r db) as [res db'] eqn:Hu. simpl in *.
    destruct res as [c|c|].
    + apply update_status_success_booking in Hu as (st & _ & _ & Hst & Hh & _).
      eexists. split; [exact Hh|]. simpl. rewrite Hst. auto.
    + destruct Hcases as [[c' Hc]|Hb]; [discriminate|exact Hb].
    + destruct Hcases as [[c' Hc]|Hb]; [discriminate|exact Hb].
  - intros e u r db.
    pose proof (cancel_booking_booking_cases e u r db) as Hcases.
    destruct (cancel_booking e u r db) as [res db'] eqn:Hu. simpl in *.
    destruct res as [c|c|].
    + apply cancel_booking_success in Hu as (_ & _ & _ & Hst & Hh & _).
      eexists. split; [exact Hh|]. simpl. rewrite Hst. auto.
    + destruct Hcases as [[c' Hc]|Hb]; [discriminate|exact Hb].
    + destruct Hcases as [[c' Hc]|Hb]; [discriminate|exact Hb].
Qed.

(** * Further routes of the cited files *)

(** ** POST /api/centers/:centerId/block-dates (src/server/routes/centers.js)

    Both versions of the centers router carry the same handler.  A date
    argument is [Some t] when [new Date(...)] gives a valid date [t], and
    [None] when it is missing or unparsable: saving an Invalid Date into the
    required [startDate]/[endDate] paths fails with a cast error. *)

Definition set_blockedDates (c : EventCenter) (l : list blocked_date) : EventCenter :=
  mk_center (ec_id c) (owner c) (isActive c) (verificationStatus c)
    (capacity_minimum c) (capacity_maximum c) (bookedDates c) l.

Definition set_isActive (c : EventCenter) (b : bool) : EventCenter :=
  mk_center (ec_id c) (owner c) b (verificationStatus c)
    (capacity_minimum c) (capacity_maximum c) (bookedDates c) (blockedDates c).

Definition block_dates (u : User) (centerId : N) (startDate endDate : option Z)
  (reason : option string) (cs : list EventCenter) : response * list EventCenter :=
  match findCenter (Some centerId) cs with
  | None => (Failure NOT_FOUND, cs)
  | Some center =>
    if negb (N.eqb (owner center) (user_id u)) then (Failure FORBIDDEN, cs) else
    match startDate, endDate with
    | Some s, Some e =>
        (Success OK,
         save_center (set_blockedDates center
                        (blockedDates center ++ [mk_blocked_date s e reason])%list) cs)
    | _, _ => (Thrown, cs)
    end
  end.

(** ** DELETE /api/centers/:centerId (src/server/routes/centers.js)

    The later version: a hard delete when [?hard=true] or the body's
    [hardDelete] is [true] or ["true"], a soft delete ([isActive = false])
    otherwise; the earlier version is the soft branch alone.  Deleting the
    image files from storage is not modelled.  The users are reduced to
    the [eventCenter] field their stored documents may hold; the unlinking
    step swallows its own errors. *)

Inductive bodyval : Set :=
| BUndefined
| BBool (b : bool)
| BStr (s : string)
| BOther.

Definition hard_delete_flag (query_hard : option string) (body_hardDelete : bodyval)
  : bool :=
  match query_hard with Some s => String.eqb s "true" | None => false end
  || match body_hardDelete with
     | BBool true => true
     | BStr s => String.eqb s "true"
     | _ => false
     end.

Record UserLink : Set := mk_user_link {
  ul_id : N;
  ul_eventCenter : option N
}.

Record CenterStore : Set := mk_store {
  st_centers : list EventCenter;
  st_users : list UserLink
}.

(** [owner.eventCenter] on a document loaded by [User.findById]:
    models/User.js declares no [eventCenter] path, so the property reads
    [undefined] whatever the stored document holds. *)
Definition owner_eventCenter (x : UserLink) : option N := None.

(** [if (owner && owner.eventCenter && owner.eventCenter.toString() ===
    center._id.toString()) { owner.eventCenter = undefined; owner.save() }] *)
Definition unlink_owner (c : EventCenter) (us : list UserLink) : list UserLink :=
  map (fun x =>
         if N.eqb (ul_id x) (owner c) then
           match owner_eventCenter x with
           | Some k => if N.eqb k (ec_id c) then mk_user_link (ul_id x) None else x
           | None => x
           end
         else x) us.

Definition delete_center (u : User) (centerId : N) (hardDelete : bool)
  (st : CenterStore) : response * CenterStore :=
  match findCenter (Some centerId) (st_centers st) with
  | None => (Failure NOT_FOUND, st)
  | Some center =>
    if negb (N.eqb (owner center) (user_id u)) && negb (String.eqb (role u) ADMIN)
    then (Failure FORBIDDEN, st) else
    if hardDelete then
      (Success OK,
       mk_store (filter (fun c => negb (N.eqb (ec_id c) (ec_id center))) (st_centers st))
         (unlink_owner center (st_users st)))
    else
      (Success OK,
       mk_store (save_center (set_isActive center false) (st_centers st)) (st_users st))
  end.

(** ** PUT /api/centers/:centerId: the images of the update (later version)

    [merge_images] is [updateData.images]: [existing] is [center.images || []],
    [images] the uploaded files (in upload order, at most 10 by
    [upload.array("images", 10)]), [removeImages] the parsed list of URLs,
    and [bodyImages] the body's [images] field: [None] when undefined,
    [Some None] when it is not an array, [Some (Some l)] for an array. *)

Record Image : Set := mk_image {
  img_url : string;
  img_caption : string
}.

Definition MAX_IMAGES : nat := 10.

(** [arr.slice(-n)] *)
Definition slice_last {A : Type} (n : nat) (l : list A) : list A :=
  skipn (length l - n) l.

Definition replace_flag (v : bodyval) : bool :=
  match v with
  | BBool true => true
  | BStr s => String.eqb s "true" || String.eqb s "1"
  | _ => false
  end.

Definition not_removed (removeImages : list string) (img : Image) : bool :=
  negb (includes removeImages (img_url img)).

Definition merge_images (existing images : list Image) (replaceFlag : bool)
  (removeImages : list string) (bodyImages : option (option (list Image)))
  : list Image :=
  if Nat.ltb 0 (length images) then
    if replaceFlag then slice_last MAX_IMAGES images
    else slice_last MAX_IMAGES (filter (not_removed removeImages) existing ++ images)%list
  else if Nat.ltb 0 (length removeImages) then
    slice_last MAX_IMAGES (filter (not_removed removeImages) existing)
  else
    match bodyImages with
    | None => slice_last MAX_IMAGES existing
    | Some (Some l) => slice_last MAX_IMAGES l
    | Some None => slice_last MAX_IMAGES []
    end.

(** *** Lemmas on the center store *)

Lemma findCenter_id (id : N) (cs : list EventCenter) (c : EventCenter) :
  findCenter (Some id) cs = Some c -> ec_id c = id /\ In c cs.
Proof.
  unfold findCenter. intros H. apply find_some in H as [Hin Heq].
  apply N.eqb_eq in Heq. auto.
Qed.

Lemma findCenter_save_same (c : EventCenter) (cs : list EventCenter) :
  findCenter (Some (ec_id c)) cs <> None ->
  findCenter (Some (ec_id c)) (save_center c cs) = Some c.
Proof.
  unfold findCenter, save_center. induction cs as [|a cs IH]; simpl; intros H.
  - contradiction.
  - destruct (N.eqb (ec_id a) (ec_id c)) eqn:E; simpl.
    + rewrite N.eqb_refl. reflexivity.
    + rewrite E. apply IH. exact H.
Qed.

Lemma findCenter_save_other (c : EventCenter) (cs : list EventCenter) (j : N) :
  j <> ec_id c ->
  findCenter (Some j) (save_center c cs) = findCenter (Some j) cs.
Proof.
  unfold findCenter, save_center. intros Hj.
  induction cs as [|a cs IH]; simpl; [reflexivity|].
  destruct (N.eqb (ec_id a) (ec_id c)) eqn:E; simpl.
  - apply N.eqb_eq in E.
    assert (Hc : N.eqb (ec_id c) j = false) by (apply N.eqb_neq; congruence).
    assert (Ha : N.eqb (ec_id a) j = false) by (apply N.eqb_neq; congruence).
    rewrite Hc, Ha. exact IH.
  - destruct (N.eqb (ec_id a) j); [reflexivity|exact IH].
Qed.



Lemma create_booking_center_failure (e : env) (u : User) (new_id : N)
  (sps : list ServiceProvider) (cs : list EventCenter) (rq : CreateRequest)
  (cid : N) (code : Z) :
  rq_bookingType rq = Some "center" -> rq_eventCenterId rq = Some cid ->
  code = BAD_REQUEST \/
    (rq_eventDate rq <> None /\ nonempty (rq_startTime rq) = true
     /\ nonempty (rq_endTime rq) = true /\ truthy_num (rq_totalAmount rq) = true) ->
  match findCenter (Some cid) cs with
  | None => code = NOT_FOUND
  | Some c => isActive c = false /\ code = BAD_REQUEST
  end ->
  create_booking e u new_id sps cs rq = (Failure code, None).
Proof.
  intros Hbt Hcid Hpre Hc. unfold create_booking. rewrite Hbt. simpl.
  destruct (rq_eventDate rq) as [d|] eqn:Hd.
  2:{ destruct Hpre as [->|[Hn _]]; [reflexivity|congruence]. }
  destruct (negb (nonempty (rq_startTime rq)) || negb (nonempty (rq_endTime rq))) eqn:Ht.
  { destruct Hpre as [->|(_ & H1 & H2 & _)]; [reflexivity|].
    rewrite H1, H2 in Ht. discriminate. }
  destruct (negb (truthy_num (rq_totalAmount rq))) eqn:Hm.
  { destruct Hpre as [->|(_ & _ & _ & H3)]; [reflexivity|].
    rewrite H3 in Hm. discriminate. }
  cbv zeta. rewrite Hcid. unfold findCenter in Hc.
  destruct (find (fun c => N.eqb (ec_id c) cid) cs) as [c|].
  - destruct Hc as [Ha ->]. rewrite Ha. reflexivity.
  - rewrite Hc. reflexivity.
Qed.

(** *** Lemmas on the image merge *)

Lemma slice_last_length {A : Type} (n : nat) (l : list A) :
  (length (slice_last n l) <= n)%nat.
Proof. unfold slice_last. rewrite length_skipn. lia. Qed.

Lemma slice_last_incl {A : Type} (n : nat) (l : list A) (x : A) :
  In x (slice_last n l) -> In x l.
Proof.
  unfold slice_last. intros H.
  rewrite <- (firstn_skipn (length l - n) l). apply in_or_app. right. exact H.
Qed.

Lemma slice_last_suffix {A : Type} (n : nat) (l1 l2 : list A) :
  (length l2 <= n)%nat ->
  exists pre, slice_last n (l1 ++ l2)%list = (pre ++ l2)%list.
Proof.
  intros H. unfold slice_last. rewrite skipn_app, length_app.
  exists (skipn (length l1 + length l2 - n) l1).
  replace (length l1 + length l2 - n - length l1)%nat with 0%nat by lia.
  reflexivity.
Qed.

(** *** Block dates *)

(** Only the owner may block dates: any other user, an admin included,
    gets 403 and the centers are left unchanged. *)
Theorem block_dates_owner_only (u : User) (centerId : N) (s e : option Z)
  (reason : option string) (cs : list EventCenter) (c : EventCenter) :
  findCenter (Some centerId) cs = Some c -> owner c <> user_id u ->
  block_dates u centerId s e reason cs = (Failure FORBIDDEN, cs).
Proof.
  intros Hf Ho. unfold block_dates. rewrite Hf.
  assert (E : N.eqb (owner c) (user_id u) = false) by (apply N.eqb_neq; exact Ho).
  rewrite E. reflexivity.
Qed.

Lemma block_dates_owner_only_witness :
  findCenter (Some 50%N) [Sample.center] = Some Sample.center
  /\ block_dates (mk_user 99 ADMIN) 50 (Some 0) (Some 1) None [Sample.center]
     = (Failure FORBIDDEN, [Sample.center]).
Proof.
  split; [reflexivity|].
  apply (block_dates_owner_only (mk_user 99 ADMIN) 50 (Some 0) (Some 1) None
           [Sample.center] Sample.center); [reflexivity|discriminate].
Defined.



(** *** Delete *)

(** Deleting is reserved to the owner and admins: any other user gets 403
    and nothing changes; a success implies the requester is one of them. *)
Theorem delete_center_owner_or_admin (u : User) (centerId : N) (hard : bool)
  (st : CenterStore) :
  (forall c, findCenter (Some centerId) (st_centers st) = Some c ->
     owner c <> user_id u -> role u <> ADMIN ->
     delete_center u centerId hard st = (Failure FORBIDDEN, st))
  /\ (forall code st', delete_center u centerId hard st = (Success code, st') ->
        exists c, findCenter (Some centerId) (st_centers st) = Some c
          /\ (owner c = user_id u \/ role u = ADMIN)).
Proof.
  unfold delete_center. split.
  - intros c Hf Ho Hr. rewrite Hf.
    apply N.eqb_neq in Ho. apply String.eqb_neq in Hr. rewrite Ho, Hr. reflexivity.
  - intros code st' H.
    destruct (findCenter (Some centerId) (st_centers st)) as [c|]; [|discriminate].
    exists c. split; [reflexivity|].
    destruct (N.eqb (owner c) (user_id u)) eqn:Ho.
    + left. apply N.eqb_eq. exact Ho.
    + destruct (String.eqb (role u) ADMIN) eqn:Hr; [|discriminate].
      right. apply String.eqb_eq. exact Hr.
Qed.

(** A soft delete keeps the center, now inactive, and every other center
    and user; from then on every center booking request naming it gets
    400. *)
Theorem soft_delete_blocks_bookings (u : User) (centerId : N) (st st' : CenterStore) :
  delete_center u centerId false st = (Success OK, st') ->
  exists c,
    findCenter (Some centerId) (st_centers st) = Some c
    /\ findCenter (Some centerId) (st_centers st') = Some (set_isActive c false)
    /\ (forall j, j <> centerId ->
          findCenter (Some j) (st_centers st') = findCenter (Some j) (st_centers st))
    /\ st_users st' = st_users st
    /\ (forall e u' new_id sps rq,
          rq_bookingType rq = Some "center" -> rq_eventCenterId rq = Some centerId ->
          create_booking e u' new_id sps (st_centers st') rq = (Failure BAD_REQUEST, None)).
Proof.
  unfold delete_center. intros H.
  destruct (findCenter (Some centerId) (st_centers st)) as [c|] eqn:Hf; [|discriminate].
  destruct (negb (N.eqb (owner c) (user_id u)) && negb (String.eqb (role u) ADMIN));
    [discriminate|].
  injection H as <-. simpl.
  pose proof (findCenter_id _ _ _ Hf) as [Hid _].
  assert (Hs : findCenter (Some centerId) (save_center (set_isActive c false) (st_centers st))
               = Some (set_isActive c false)).
  { rewrite <- Hid. apply (findCenter_save_same (set_isActive c false)).
    change (findCenter (Some (ec_id c)) (st_centers st) <> None).
    rewrite Hid, Hf. discriminate. }
  exists c. split; [reflexivity|]. split; [exact Hs|]. split.
  { intros j Hj. apply findCenter_save_other. simpl. congruence. }
  split; [reflexivity|].
  intros e u' new_id sps rq Hbt Hcid.
  apply (create_booking_center_failure e u' new_id sps _ rq centerId); auto.
  rewrite Hs. split; reflexivity.
Qed.

Lemma soft_delete_blocks_bookings_witness :
  exists st',
    delete_center Sample.owner_user 50 false (mk_store [Sample.center] [])
    = (Success OK, st')
    /\ create_booking Sample.env0 Sample.host 101 [] (st_centers st')
         (center_request (8 * day_ms) (Some 50)) = (Failure BAD_REQUEST, None).
Proof.
  eexists. split; [reflexivity|].
  destruct (soft_delete_blocks_bookings Sample.owner_user 50
              (mk_store [Sample.center] []) _ eq_refl)
    as (c & _ & _ & _ & _ & Hb).
  apply Hb; reflexivity.
Defined.



(** *** Images *)

(** The update never leaves more than [MAX_IMAGES] images. *)
Theorem merge_images_bounded (existing images : list Image) (replaceFlag : bool)
  (removeImages : list string) (bodyImages : option (option (list Image))) :
  (length (merge_images existing images replaceFlag removeImages bodyImages)
   <= MAX_IMAGES)%nat.
Proof.
  unfold merge_images.
  destruct (Nat.ltb 0 (length images)); [destruct replaceFlag|];
    [| |destruct (Nat.ltb 0 (length removeImages));
        [|destruct bodyImages as [[l|]|]]];
    apply slice_last_length.
Qed.

(** With a non-empty [removeImages], every image left is an uploaded one or
    an existing one whose URL is not listed. *)
Theorem merge_images_removes (existing images : list Image) (replaceFlag : bool)
  (removeImages : list string) (bodyImages : option (option (list Image))) :
  removeImages <> []%list ->
  forall img, In img (merge_images existing images replaceFlag removeImages bodyImages) ->
    In img images \/ (In img existing /\ ~ In (img_url img) removeImages).
Proof.
  intros Hr img. unfold merge_images.
  assert (Hf : forall x, In x (filter (not_removed removeImages) existing) ->
                 In x existing /\ ~ In (img_url x) removeImages).
  { intros x Hx. apply filter_In in Hx as [Hx Hn]. split; [exact Hx|].
    unfold not_removed, includes in Hn. apply negb_true_iff in Hn.
    intros Hin. assert (existsb (String.eqb (img_url x)) removeImages = true)
      by (apply existsb_exists; exists (img_url x); split; [exact Hin|apply String.eqb_refl]).
    congruence. }
  destruct (Nat.ltb 0 (length images)).
  - destruct replaceFlag; intros H; apply slice_last_incl in H; [left; exact H|].
    apply in_app_or in H as [H|H]; [right; apply Hf; exact H|left; exact H].
  - destruct (Nat.ltb 0 (length removeImages)) eqn:El.
    + intros H. apply slice_last_incl in H. right. apply Hf. exact H.
    + destruct removeImages; [contradiction|discriminate].
Qed.

Lemma merge_images_removes_witness :
  In (mk_image "b" "") (merge_images [mk_image "a" ""; mk_image "b" ""] []
                          false ["a"] None)
  /\ (In (mk_image "b" "") []
      \/ (In (mk_image "b" "") [mk_image "a" ""; mk_image "b" ""] /\ ~ In "b" ["a"])).
Proof.
  split; [simpl; auto|].
  apply (merge_images_removes [mk_image "a" ""; mk_image "b" ""] [] false ["a"] None);
    [discriminate|simpl; auto].
Defined.

(** At most [MAX_IMAGES] uploads (multer's own limit) all survive, as the
    tail of the new list, in upload order. *)
Theorem merge_images_keeps_uploads (existing images : list Image) (replaceFlag : bool)
  (removeImages : list string) (bodyImages : option (option (list Image))) :
  (length images <= MAX_IMAGES)%nat ->
  exists pre, merge_images existing images replaceFlag removeImages bodyImages
              = (pre ++ images)%list.
Proof.
  intros Hl. unfold merge_images.
  destruct (Nat.ltb 0 (length images)) eqn:E.
  - destruct replaceFlag.
    + exists []%list. unfold slice_last. simpl.
      replace (length images - MAX_IMAGES)%nat with 0%nat by lia. reflexivity.
    + apply slice_last_suffix. exact Hl.
  - apply Nat.ltb_ge in E. destruct images; [|simpl in E; lia].
    eexists. rewrite app_nil_r. reflexivity.
Qed.

Lemma merge_images_keeps_uploads_witness :
  exists pre, merge_images [mk_image "a" ""] [mk_image "n" "images"] false [] None
              = (pre ++ [mk_image "n" "images"])%list.
Proof. apply merge_images_keeps_uploads. apply Nat.leb_le. reflexivity. Defined.

(** ** The review routes (src/server/routes/reviews.js)

    A review as these routes read and write it (src/unnamed/part_017); the
    other paths of a stored review are taken to satisfy the schema, so that
    [review.save()] fails only on the paths a route writes. *)

Record ReviewDoc : Set := mk_review_doc {
  rd_id : N;
  rd_reviewType : string;
  rd_serviceProvider : option N;
  rd_eventCenter : option N;
  rd_overall : Z;
  rd_response_text : option string;
  rd_respondedBy : option N;
  rd_respondedAt : option Z;
  rd_helpfulVotes : Z;
  rd_helpfulBy : list N;
  rd_isHidden : bool;
  rd_reportCount : Z
}.

(** [Review.findById(id)] *)
Definition find_review (id : N) (rs : list ReviewDoc) : option ReviewDoc :=
  find (fun r => N.eqb (rd_id r) id) rs.

(** [review.save()] *)
Definition save_review (r : ReviewDoc) (rs : list ReviewDoc) : list ReviewDoc :=
  map (fun r' => if N.eqb (rd_id r') (rd_id r) then r else r') rs.

Definition set_helpful (r : ReviewDoc) (by_ : list N) (votes : Z) : ReviewDoc :=
  mk_review_doc (rd_id r) (rd_reviewType r) (rd_serviceProvider r) (rd_eventCenter r)
    (rd_overall r) (rd_response_text r) (rd_respondedBy r) (rd_respondedAt r)
    votes by_ (rd_isHidden r) (rd_reportCount r).

Definition set_response (r : ReviewDoc) (text : string) (by_ : N) (at_ : Z) : ReviewDoc :=
  mk_review_doc (rd_id r) (rd_reviewType r) (rd_serviceProvider r) (rd_eventCenter r)
    (rd_overall r) (Some text) (Some by_) (Some at_)
    (rd_helpfulVotes r) (rd_helpfulBy r) (rd_isHidden r) (rd_reportCount r).

Definition set_hidden (r : ReviewDoc) (h : bool) : ReviewDoc :=
  mk_review_doc (rd_id r) (rd_reviewType r) (rd_serviceProvider r) (rd_eventCenter r)
    (rd_overall r) (rd_response_text r) (rd_respondedBy r) (rd_respondedAt r)
    (rd_helpfulVotes r) (rd_helpfulBy r) h (rd_reportCount r).

(** *** GET /api/reviews/:reviewId

    The route has no [protect] middleware and no global middleware sets
    [req.user], so the handler always runs with [req_user = None]. *)
Definition get_review_handler (req_user : option User) (reviewId : N)
  (rs : list ReviewDoc) : response :=
  match find_review reviewId rs with
  | None => Failure NOT_FOUND
  | Some review =>
    if rd_isHidden review
       && match req_user with
          | None => true
          | Some u => negb (String.eqb (role u) ADMIN)
          end
    then Failure NOT_FOUND
    else Success OK
  end.

Definition get_review (reviewId : N) (rs : list ReviewDoc) : response :=
  get_review_handler None reviewId rs.

(** *** POST /api/reviews/:reviewId/helpful *)
Definition toggle_helpful (u : User) (reviewId : N) (rs : list ReviewDoc)
  : response * list ReviewDoc :=
  match find_review reviewId rs with
  | None => (Failure NOT_FOUND, rs)
  | Some review =>
    let alreadyHelpful := existsb (fun x => N.eqb x (user_id u)) (rd_helpfulBy review) in
    let review' :=
      if alreadyHelpful then
        set_helpful review
          (filter (fun x => negb (N.eqb x (user_id u))) (rd_helpfulBy review))
          (Z.max 0 (rd_helpfulVotes review - 1))
      else
        set_helpful review (rd_helpfulBy review ++ [user_id u])%list
          (rd_helpfulVotes review + 1) in
    (Success OK, save_review review' rs)
  end.

(** *** POST /api/reviews/:reviewId/response

    [text] is [None] when absent; texts are ASCII, so [text.trim()] removes
    exactly the characters 9 to 13 and the space, and [text.length] is
    [String.length]. *)
Fixpoint blank (s : string) : bool :=
  match s with
  | EmptyString => true
  | String c s' => js_space c && blank s'
  end.

(** [!text || text.trim().length === 0] *)
Definition response_text_missing (text : option string) : bool :=
  match text with Some t => blank t | None => true end.

(** [ServiceProvider.findById] behind [.populate("serviceProvider")]. *)
Definition populate_sp (id : option N) (sps : list ServiceProvider)
  : option ServiceProvider :=
  match id with
  | Some i => find (fun sp => N.eqb (sp_id sp) i) sps
  | None => None
  end.

Definition isAuthorized_response (u : User) (review : ReviewDoc)
  (sps : list ServiceProvider) (cs : list EventCenter) : bool :=
  match (if String.eqb (rd_reviewType review) "provider"
         then populate_sp (rd_serviceProvider review) sps else None) with
  | Some sp => N.eqb (sp_provider sp) (user_id u)
  | None =>
    match (if String.eqb (rd_reviewType review) "center"
           then findCenter (rd_eventCenter review) cs else None) with
    | Some c => N.eqb (owner c) (user_id u)
    | None => false
    end
  end.

Definition respond_review (u : User) (reviewId : N) (text : option string) (now : Z)
  (sps : list ServiceProvider) (cs : list EventCenter) (rs : list ReviewDoc)
  : response * list ReviewDoc :=
  if response_text_missing text then (Failure BAD_REQUEST, rs) else
  match find_review reviewId rs with
  | None => (Failure NOT_FOUND, rs)
  | Some review =>
    if negb (isAuthorized_response u review sps cs) && negb (String.eqb (role u) ADMIN)
    then (Failure FORBIDDEN, rs) else
    if nonempty (rd_response_text review) then (Failure CONFLICT, rs) else
    match text with
    | None => (Failure BAD_REQUEST, rs)
    | Some t =>
      (* response.text: maxlength 500 *)
      if Nat.ltb 500 (String.length t) then (Thrown, rs)
      else (Success OK, save_review (set_response review t (user_id u) now) rs)
    end
  end.

(** *** updateRatings, updateProviderRating, updateCenterRating

    [rating.average] is kept in tenths.  [fixed1 total n] stands for
    [parseFloat((total / n).toFixed(1))] in tenths, computed in binary64:
    the theorems below only assume that it is monotone in [total] and exact
    on whole averages, as the IEEE division and [toFixed] are.  The copy of
    a provider's rating into its user profile is not modelled. *)

Record RatingDoc : Set := mk_rating {
  rt_id : N;
  rt_average : Z;
  rt_count : Z
}.

Record ReviewStore : Set := mk_review_store {
  store_reviews : list ReviewDoc;
  store_sp_ratings : list RatingDoc;
  store_center_ratings : list RatingDoc
}.

Definition find_rating (id : N) (ds : list RatingDoc) : option RatingDoc :=
  find (fun d => N.eqb (rt_id d) id) ds.

Definition save_rating (d : RatingDoc) (ds : list RatingDoc) : list RatingDoc :=
  map (fun d' => if N.eqb (rt_id d') (rt_id d) then d else d') ds.

(** [Review.find({ <target>: id, isHidden: false })] *)
Definition visible_review (target : ReviewDoc -> option N) (id : N) (r : ReviewDoc)
  : bool :=
  match target r with Some i => N.eqb i id | None => false end
  && negb (rd_isHidden r).

Definition sum_overall (l : list ReviewDoc) : Z :=
  fold_left (fun s r => s + rd_overall r) l 0.

Definition rating_of (fixed1 : Z -> Z -> Z) (l : list ReviewDoc) : Z * Z :=
  match l with
  | [] => (0, 0)
  | _ => (fixed1 (sum_overall l) (Z.of_nat (length l)), Z.of_nat (length l))
  end.

(** The body of [updateCenterRating] / [updateProviderRating]: nothing when
    the target is not found; [save()] fails ([rating.average] has
    [min: 0, max: 5]) and the error is swallowed by [updateRatings]. *)
Definition update_rating (fixed1 : Z -> Z -> Z) (target : ReviewDoc -> option N)
  (id : N) (rs : list ReviewDoc) (ds : list RatingDoc) : list RatingDoc :=
  match find_rating id ds with
  | None => ds
  | Some _ =>
    let (avg, cnt) := rating_of fixed1 (filter (visible_review target id) rs) in
    if (0 <=? avg) && (avg <=? 50) then save_rating (mk_rating id avg cnt) ds else ds
  end.

Definition updateRatings (fixed1 : Z -> Z -> Z) (review : ReviewDoc) (st : ReviewStore)
  : ReviewStore :=
  match (if String.eqb (rd_reviewType review) "provider"
         then rd_serviceProvider review else None) with
  | Some i =>
      mk_review_store (store_reviews st)
        (update_rating fixed1 rd_serviceProvider i (store_reviews st) (store_sp_ratings st))
        (store_center_ratings st)
  | None =>
    match (if String.eqb (rd_reviewType review) "center"
           then rd_eventCenter review else None) with
    | Some i =>
        mk_review_store (store_reviews st) (store_sp_ratings st)
          (update_rating fixed1 rd_eventCenter i (store_reviews st)
             (store_center_ratings st))
    | None => st
    end
  end.

(** *** PUT /api/reviews/:reviewId/hide and /unhide, behind
    [authorize(USER_ROLES.ADMIN)] ([hidden] is [true] for hide). *)
Definition set_review_hidden (fixed1 : Z -> Z -> Z) (u : User) (reviewId : N)
  (hidden : bool) (st : ReviewStore) : response * ReviewStore :=
  if negb (String.eqb (role u) ADMIN) then (Failure FORBIDDEN, st) else
  match find_review reviewId (store_reviews st) with
  | None => (Failure NOT_FOUND, st)
  | Some review =>
    let review' := set_hidden review hidden in
    let st1 := mk_review_store (save_review review' (store_reviews st))
                 (store_sp_ratings st) (store_center_ratings st) in
    (Success OK, updateRatings fixed1 review' st1)
  end.

(** A rounding of the average in tenths: half up, on exact rationals. *)
Definition round_tenths (total n : Z) : Z := (20 * total + n) / (2 * n).

(** *** Lemmas on the review store *)

Lemma find_review_id (id : N) (rs : list ReviewDoc) (r : ReviewDoc) :
  find_review id rs = Some r -> rd_id r = id /\ In r rs.
Proof.
  unfold find_review. intros H. apply find_some in H as [Hin Heq].
  apply N.eqb_eq in Heq. auto.
Qed.

Lemma find_review_save_same (r : ReviewDoc) (rs : list ReviewDoc) :
  find_review (rd_id r) rs <> None ->
  find_review (rd_id r) (save_review r rs) = Some r.
Proof.
  unfold find_review, save_review. induction rs as [|a rs IH]; simpl; intros H.
  - contradiction.
  - destruct (N.eqb (rd_id a) (rd_id r)) eqn:E; simpl.
    + rewrite N.eqb_refl. reflexivity.
    + rewrite E. apply IH. exact H.
Qed.


Lemma save_review_Forall (P : ReviewDoc -> Prop) (r : ReviewDoc) (rs : list ReviewDoc) :
  Forall P rs -> P r -> Forall P (save_review r rs).
Proof.
  unfold save_review. intros H Hr. apply Forall_map.
  eapply Forall_impl; [|exact H]. intros a Ha. simpl.
  destruct (N.eqb (rd_id a) (rd_id r)); assumption.
Qed.

(** *** Lemmas on helpful votes *)

(** A review's votes agree with its voters. *)
Definition helpful_ok (r : ReviewDoc) : Prop :=
  NoDup (rd_helpfulBy r) /\ rd_helpfulVotes r = Z.of_nat (length (rd_helpfulBy r)).

Lemma filter_neq_notin (a : N) (l : list N) :
  ~ In a l -> filter (fun x => negb (N.eqb x a)) l = l.
Proof.
  induction l as [|x l IH]; simpl; intros H; [reflexivity|].
  destruct (N.eqb x a) eqn:E.
  - apply N.eqb_eq in E. subst. exfalso. apply H. left. reflexivity.
  - simpl. f_equal. apply IH. tauto.
Qed.

Lemma filter_neq_length (a : N) (l : list N) :
  NoDup l -> In a l ->
  length (filter (fun x => negb (N.eqb x a)) l) = (length l - 1)%nat.
Proof.
  induction l as [|x l IH]; intros Hd Hin; [contradiction|].
  inversion Hd as [|? ? Hx Hl]; subst. simpl.
  destruct (N.eqb x a) eqn:E; simpl.
  - apply N.eqb_eq in E. subst. rewrite filter_neq_notin by exact Hx. lia.
  - destruct Hin as [Hin|Hin]; [apply N.eqb_neq in E; congruence|].
    rewrite IH by assumption. destruct l; [contradiction|simpl; lia].
Qed.

Lemma existsb_eqb_In (a : N) (l : list N) :
  existsb (fun x => N.eqb x a) l = true <-> In a l.
Proof.
  rewrite existsb_exists. split.
  - intros (x & Hx & E). apply N.eqb_eq in E. subst. exact Hx.
  - intros H. exists a. split; [exact H|apply N.eqb_refl].
Qed.

(** *** Lemmas on ratings *)

Lemma sum_overall_acc (l : list ReviewDoc) (a : Z) :
  fold_left (fun s r => s + rd_overall r) l a = a + sum_overall l.
Proof.
  unfold sum_overall. revert a.
  induction l as [|x l IH]; intros a; simpl; [lia|].
  rewrite (IH (a + rd_overall x)), (IH (rd_overall x)). lia.
Qed.

Lemma sum_overall_bounds (l : list ReviewDoc) :
  Forall (fun r => 1 <= rd_overall r <= 5) l ->
  Z.of_nat (length l) <= sum_overall l <= 5 * Z.of_nat (length l).
Proof.
  induction l as [|x l IH]; intros H; [simpl; unfold sum_overall; simpl; lia|].
  inversion H as [|? ? Hx Hl]; subst.
  unfold sum_overall. simpl. rewrite sum_overall_acc.
  specialize (IH Hl). simpl length. lia.
Qed.

Lemma find_rating_save_same (d : RatingDoc) (ds : list RatingDoc) :
  find_rating (rt_id d) ds <> None ->
  find_rating (rt_id d) (save_rating d ds) = Some d.
Proof.
  unfold find_rating, save_rating. induction ds as [|a ds IH]; simpl; intros H.
  - contradiction.
  - destruct (N.eqb (rt_id a) (rt_id d)) eqn:E; simpl.
    + rewrite N.eqb_refl. reflexivity.
    + rewrite E. apply IH. exact H.
Qed.




Lemma round_tenths_mono (t1 t2 n : Z) :
  0 < n -> t1 <= t2 -> round_tenths t1 n <= round_tenths t2 n.
Proof. intros Hn Ht. unfold round_tenths. apply Z.div_le_mono; lia. Qed.

Lemma round_tenths_exact (k n : Z) : 0 < n -> round_tenths (k * n) n = 10 * k.
Proof.
  intros Hn. unfold round_tenths.
  replace (20 * (k * n) + n) with (n + 10 * k * (2 * n)) by ring.
  rewrite Z.div_add by lia. rewrite Z.div_small by lia. lia.
Qed.

Section Ratings.
  Variable fixed1 : Z -> Z -> Z.
  Hypothesis fixed1_mono :
    forall t1 t2 n, 0 < n -> t1 <= t2 -> fixed1 t1 n <= fixed1 t2 n.
  Hypothesis fixed1_exact : forall k n, 0 < n -> fixed1 (k * n) n = 10 * k.

Lemma rating_of_bounds (l : list ReviewDoc) :
  Forall (fun r => 1 <= rd_overall r <= 5) l ->
  l <> []%list -> 10 <= fst (rating_of fixed1 l) <= 50.
Proof.
  intros H Hne. destruct l as [|x l']; [contradiction|].
  set (l := (x :: l')%list). change (10 <= fixed1 (sum_overall l) (Z.of_nat (length l)) <= 50).
  assert (Hn : 0 < Z.of_nat (length l)) by (simpl; lia).
  pose proof (sum_overall_bounds l H) as [H1 H5].
  split.
  - rewrite <- (Z.mul_1_r 10), <- (fixed1_exact 1 _ Hn), Z.mul_1_l.
    apply fixed1_mono; lia.
  - replace 50 with (10 * 5) by reflexivity. rewrite <- (fixed1_exact 5 _ Hn).
    apply fixed1_mono; lia.
Qed.

Lemma update_rating_spec (target : ReviewDoc -> option N) (id : N)
  (rs : list ReviewDoc) (ds : list RatingDoc) :
  Forall (fun r => 1 <= rd_overall r <= 5) rs ->
  find_rating id ds <> None ->
  update_rating fixed1 target id rs ds
  = save_rating (mk_rating id (fst (rating_of fixed1 (filter (visible_review target id) rs)))
                   (Z.of_nat (length (filter (visible_review target id) rs)))) ds
  /\ (filter (visible_review target id) rs = []%list ->
      fst (rating_of fixed1 (filter (visible_review target id) rs)) = 0)
  /\ (filter (visible_review target id) rs <> []%list ->
      10 <= fst (rating_of fixed1 (filter (visible_review target id) rs)) <= 50).
Proof.
  intros H Hd. unfold update_rating.
  destruct (find_rating id ds) as [d|]; [|contradiction].
  set (l := filter (visible_review target id) rs).
  assert (Hl : Forall (fun r => 1 <= rd_overall r <= 5) l).
  { apply Forall_forall. intros x Hx. apply filter_In in Hx as [Hx _].
    rewrite Forall_forall in H. apply H. exact Hx. }
  destruct l as [|x l'] eqn:El.
  - simpl. split; [reflexivity|]. split; [reflexivity|]. intros C; contradiction.
  - pose proof (rating_of_bounds (x :: l') Hl ltac:(discriminate)) as Hb.
    simpl in Hb |- *.
    destruct (0 <=? fixed1 (sum_overall (x :: l')) (Z.pos (Pos.of_succ_nat (length l'))))
      eqn:E1; [|apply Z.leb_gt in E1; lia].
    destruct (fixed1 (sum_overall (x :: l')) (Z.pos (Pos.of_succ_nat (length l'))) <=? 50)
      eqn:E2; [|apply Z.leb_gt in E2; lia].
    simpl. split; [reflexivity|]. split; [discriminate|]. intros _. exact Hb.
Qed.


(** The rating written by [updateCenterRating] and [updateProviderRating]:
    when the center or service provider exists and every review has an
    overall rating from 1 to 5, its [count] is the number of its visible
    reviews and its [average] is 0 with no visible review and between 1.0
    and 5.0 otherwise, so the save always passes the [min: 0, max: 5]
    validators and the rating is never left stale. *)
Theorem update_rating_recomputes (target : ReviewDoc -> option N) (id : N)
  (rs : list ReviewDoc) (ds : list RatingDoc) :
  Forall (fun r => 1 <= rd_overall r <= 5) rs ->
  find_rating id ds <> None ->
  exists avg,
    find_rating id (update_rating fixed1 target id rs ds)
      = Some (mk_rating id avg (Z.of_nat (length (filter (visible_review target id) rs))))
    /\ (filter (visible_review target id) rs = []%list -> avg = 0)
    /\ (filter (visible_review target id) rs <> []%list -> 10 <= avg <= 50).
Proof.
  intros H Hd.
  destruct (update_rating_spec target id rs ds H Hd) as (-> & H0 & H1).
  eexists. split; [|split; [exact H0|exact H1]].
  apply (find_rating_save_same (mk_rating id _ _)). exact Hd.
Qed.


End Ratings.

(** *** Theorems on helpful votes, responses and hidden reviews *)


(** [POST /:reviewId/helpful] keeps every review's vote count equal to the
    number of distinct users in [helpfulBy], and flips the requester's
    vote: a user who had voted is removed and the count drops by one, any
    other user is added and the count rises by one. *)
Theorem toggle_helpful_flips (u : User) (reviewId : N) (rs : list ReviewDoc)
  (r : ReviewDoc) :
  Forall helpful_ok rs -> find_review reviewId rs = Some r ->
  Forall helpful_ok (snd (toggle_helpful u reviewId rs))
  /\ exists r',
       find_review reviewId (snd (toggle_helpful u reviewId rs)) = Some r'
       /\ (In (user_id u) (rd_helpfulBy r') <-> ~ In (user_id u) (rd_helpfulBy r))
       /\ (In (user_id u) (rd_helpfulBy r) -> rd_helpfulVotes r' = rd_helpfulVotes r - 1)
       /\ (~ In (user_id u) (rd_helpfulBy r) -> rd_helpfulVotes r' = rd_helpfulVotes r + 1).
Proof.
  intros Hall Hf. pose proof (find_review_id _ _ _ Hf) as [Hid Hin].
  assert (Hok : helpful_ok r) by (rewrite Forall_forall in Hall; auto).
  destruct Hok as [Hnd Hv].
  unfold toggle_helpful. rewrite Hf. simpl.
  destruct (existsb (fun x => N.eqb x (user_id u)) (rd_helpfulBy r)) eqn:Ea.
  - apply existsb_eqb_In in Ea.
    set (r' := set_helpful r (filter (fun x => negb (N.eqb x (user_id u))) (rd_helpfulBy r))
                 (Z.max 0 (rd_helpfulVotes r - 1))).
    assert (Hv' : rd_helpfulVotes r' = rd_helpfulVotes r - 1).
    { simpl. rewrite Hv. destruct (rd_helpfulBy r); [contradiction|]. simpl length. lia. }
    assert (Hok' : helpful_ok r').
    { split.
      - apply NoDup_filter. exact Hnd.
      - rewrite Hv'. simpl. rewrite filter_neq_length by assumption. rewrite Hv.
        destruct (rd_helpfulBy r); [contradiction|]. simpl length. lia. }
    split; [apply save_review_Forall; assumption|].
    exists r'.
    assert (Hid' : rd_id r' = reviewId) by exact Hid.
    split.
    + rewrite <- Hid'. apply find_review_save_same. rewrite Hid', Hf. discriminate.
    + split; [|split; [intros _; exact Hv'|intros C; contradiction]].
      simpl. rewrite filter_In. split; [|intros C; contradiction].
      intros [_ E]. rewrite N.eqb_refl in E. discriminate.
  - assert (Hni : ~ In (user_id u) (rd_helpfulBy r)).
    { intros C. apply existsb_eqb_In in C. congruence. }
    set (r' := set_helpful r (rd_helpfulBy r ++ [user_id u])%list (rd_helpfulVotes r + 1)).
    assert (Hok' : helpful_ok r').
    { split; simpl.
      - apply Permutation_NoDup with (user_id u :: rd_helpfulBy r).
        + apply Permutation_cons_append.
        + constructor; assumption.
      - rewrite length_app. simpl length. lia. }
    split; [apply save_review_Forall; assumption|].
    exists r'.
    assert (Hid' : rd_id r' = reviewId) by exact Hid.
    split.
    + rewrite <- Hid'. apply find_review_save_same. rewrite Hid', Hf. discriminate.
    + split; [|split; [intros C; contradiction|intros _; reflexivity]].
      simpl. rewrite in_app_iff. split; [intros _; exact Hni|intros _; right; left; reflexivity].
Qed.

Lemma toggle_helpful_flips_witness :
  let r0 := mk_review_doc 400 "center" None (Some 50%N) 5 None None None 0 [] false 0 in
  Forall helpful_ok [r0] /\ find_review 400 [r0] = Some r0
  /\ Forall helpful_ok (snd (toggle_helpful Sample.host 400 [r0])).
Proof.
  intros r0.
  assert (H1 : Forall helpful_ok [r0]) by (constructor; [split; [constructor|reflexivity]|constructor]).
  assert (H2 : find_review 400 [r0] = Some r0) by reflexivity.
  split; [exact H1|]. split; [exact H2|].
  exact (proj1 (toggle_helpful_flips Sample.host 400 [r0] r0 H1 H2)).
Defined.



Lemma blank_empty_false (t : string) : blank t = false -> String.eqb t "" = false.
Proof. destruct t; [discriminate|reflexivity]. Qed.

(** A review is answered at most once: after [POST /:reviewId/response]
    succeeds, the requester was the provider's or center's owner or an
    admin, the review carries the text and the responder, and every later
    request on it fails without changing anything: 400 without a text,
    otherwise 409 for an authorised user or admin and 403 for anyone else. *)
Theorem respond_review_once (u : User) (reviewId : N) (t : string) (now : Z)
  (sps : list ServiceProvider) (cs : list EventCenter) (rs rs' : list ReviewDoc)
  (code : Z) :
  respond_review u reviewId (Some t) now sps cs rs = (Success code, rs') ->
  exists r r',
    find_review reviewId rs = Some r
    /\ (isAuthorized_response u r sps cs = true \/ role u = ADMIN)
    /\ find_review reviewId rs' = Some r'
    /\ rd_response_text r' = Some t /\ rd_respondedBy r' = Some (user_id u)
    /\ forall u2 t2 now2,
         respond_review u2 reviewId t2 now2 sps cs rs'
         = (Failure (if response_text_missing t2 then BAD_REQUEST
                     else if isAuthorized_response u2 r sps cs || String.eqb (role u2) ADMIN
                          then CONFLICT else FORBIDDEN), rs').
Proof.
  unfold respond_review at 1. intros Hs.
  destruct (response_text_missing (Some t)) eqn:Em; [discriminate|].
  destruct (find_review reviewId rs) as [r|] eqn:Hf; [|discriminate].
  destruct (negb (isAuthorized_response u r sps cs) && negb (String.eqb (role u) ADMIN))
    eqn:Ea; [discriminate|].
  destruct (nonempty (rd_response_text r)); [discriminate|].
  destruct (Nat.ltb 500 (String.length t)); [discriminate|].
  inversion Hs; subst rs'. clear Hs.
  pose proof (find_review_id _ _ _ Hf) as [Hid _].
  set (r' := set_response r t (user_id u) now).
  assert (Hid' : rd_id r' = reviewId) by exact Hid.
  assert (Hf' : find_review reviewId (save_review r' rs) = Some r').
  { rewrite <- Hid'. apply find_review_save_same. rewrite Hid', Hf. discriminate. }
  exists r, r'. split; [reflexivity|]. split.
  { destruct (isAuthorized_response u r sps cs); [left; reflexivity|right].
    destruct (String.eqb_spec (role u) ADMIN); [assumption|discriminate]. }
  split; [exact Hf'|]. split; [reflexivity|]. split; [reflexivity|].
  intros u2 t2 now2. unfold respond_review.
  destruct (response_text_missing t2); [reflexivity|]. rewrite Hf'.
  assert (Hauth : isAuthorized_response u2 r' sps cs = isAuthorized_response u2 r sps cs)
    by reflexivity.
  rewrite Hauth.
  assert (Hne : nonempty (rd_response_text r') = true).
  { simpl. simpl in Em. rewrite (blank_empty_false t Em). reflexivity. }
  cbv beta iota zeta. rewrite Hne.
  destruct (isAuthorized_response u2 r sps cs), (String.eqb (role u2) ADMIN);
    reflexivity.
Qed.

Lemma respond_review_once_witness :
  let r0 := mk_review_doc 400 "center" None (Some 50%N) 5 None None None 0 [] false 0 in
  respond_review Sample.owner_user 400 (Some "Thank you") 1000 [] [Sample.center] [r0]
  = (Success OK, [set_response r0 "Thank you" 2 1000])
  /\ exists r r', find_review 400 [r0] = Some r
       /\ (isAuthorized_response Sample.owner_user r [] [Sample.center] = true
           \/ role Sample.owner_user = ADMIN)
       /\ find_review 400 [set_response r0 "Thank you" 2 1000] = Some r'
       /\ rd_response_text r' = Some "Thank you" /\ rd_respondedBy r' = Some 2%N
       /\ forall u2 t2 now2,
            respond_review u2 400 t2 now2 [] [Sample.center] [set_response r0 "Thank you" 2 1000]
            = (Failure (if response_text_missing t2 then BAD_REQUEST
                        else if isAuthorized_response u2 r [] [Sample.center]
                                || String.eqb (role u2) ADMIN
                             then CONFLICT else FORBIDDEN),
               [set_response r0 "Thank you" 2 1000]).
Proof.
  intros r0.
  assert (H : respond_review Sample.owner_user 400 (Some "Thank you") 1000 [] [Sample.center] [r0]
              = (Success OK, [set_response r0 "Thank you" 2 1000])) by reflexivity.
  split; [exact H|].
  exact (respond_review_once Sample.owner_user 400 "Thank you" 1000 [] [Sample.center]
           [r0] [set_response r0 "Thank you" 2 1000] OK H).
Defined.

(** [GET /:reviewId] answers 404 for a hidden review whoever asks, admins
    included: the route runs without [protect], so the handler's admin
    branch, which would answer 200, is never taken. *)
Theorem get_review_hidden_not_found (reviewId : N) (rs : list ReviewDoc) (r : ReviewDoc) :
  find_review reviewId rs = Some r -> rd_isHidden r = true ->
  get_review reviewId rs = Failure NOT_FOUND
  /\ forall u, role u = ADMIN -> get_review_handler (Some u) reviewId rs = Success OK.
Proof.
  intros Hf Hh. unfold get_review, get_review_handler. rewrite Hf, Hh. simpl.
  split; [reflexivity|]. intros u Hu. rewrite Hu. reflexivity.
Qed.

Lemma get_review_hidden_not_found_witness :
  let r0 := mk_review_doc 400 "center" None (Some 50%N) 5 None None None 0 [] true 3 in
  get_review 400 [r0] = Failure NOT_FOUND.
Proof.
  intros r0. exact (proj1 (get_review_hidden_not_found 400 [r0] r0 eq_refl eq_refl)).
Defined.

(** [round_tenths] meets the assumptions of the [Ratings] section. *)
Lemma update_rating_recomputes_witness :
  let r0 := mk_review_doc 400 "center" None (Some 50%N) 5 None None None 0 [] false 0 in
  let r1 := mk_review_doc 401 "center" None (Some 50%N) 4 None None None 0 [] false 0 in
  let ds := [mk_rating 50 0 0] in
  exists avg,
    find_rating 50 (update_rating round_tenths rd_eventCenter 50 [r0; r1] ds)
      = Some (mk_rating 50 avg (Z.of_nat (length (filter (visible_review rd_eventCenter 50) [r0; r1]))))
    /\ (filter (visible_review rd_eventCenter 50) [r0; r1] = []%list -> avg = 0)
    /\ (filter (visible_review rd_eventCenter 50) [r0; r1] <> []%list -> 10 <= avg <= 50).
Proof.
  intros r0 r1 ds.
  apply (update_rating_recomputes round_tenths round_tenths_mono round_tenths_exact).
  - repeat constructor; simpl; lia.
  - discriminate.
Defined.


(** ** Paginated lists

    [GET /api/users/:userId/bookings] (bookings routes) and
    [GET /api/centers/:centerId/reviews] (reviews routes) share one
    pagination scheme.  [page] and [limit] are [parseInt] results, taken
    as integers (decimal query strings other than ["-0"]).  MongoDB
    applies [.sort], then [.skip], then [.limit] whatever the call order; a
    negative skip is an error, [limit(0)] means no limit and a negative
    limit returns at most its absolute value. *)
Definition mongo_page {A : Type} (skip limit : Z) (l : list A) : option (list A) :=
  if skip <? 0 then None else
  let rest := skipn (Z.to_nat skip) l in
  if limit =? 0 then Some rest else Some (firstn (Z.to_nat (Z.abs limit)) rest).

(** A JS number result of [Math.ceil(total / limitNum)], with [total >= 0]:
    [total / 0] is [Infinity], or [NaN] when [total] is also 0. *)
Inductive jsnumber : Set :=
| NumFin (z : Z)
| NumInf
| NumNaN.

Definition js_ceil_div (total limit : Z) : jsnumber :=
  if limit =? 0 then (if total =? 0 then NumNaN else NumInf)
  else NumFin (- ((- total) / limit)).

(** [p < x] for an integer [p] *)
Definition js_lt (p : Z) (x : jsnumber) : bool :=
  match x with
  | NumFin z => p <? z
  | NumInf => true
  | NumNaN => false
  end.

Record Pagination : Set := mk_pagination {
  pg_total : Z;
  pg_page : Z;
  pg_pages : jsnumber;
  pg_limit : Z;
  pg_hasNext : bool;
  pg_hasPrev : bool
}.

Definition pagination (total pageNum limitNum : Z) : Pagination :=
  mk_pagination total pageNum (js_ceil_div total limitNum) limitNum
    (js_lt pageNum (js_ceil_div total limitNum)) (1 <? pageNum).

Inductive list_result (A : Type) : Type :=
| ListOk (items : list A) (pg : Pagination)
| ListFail (code : Z)
| ListThrown.
Arguments ListOk {A} items pg.
Arguments ListFail {A} code.
Arguments ListThrown {A}.

Definition list_items {A : Type} (r : list_result A) : list A :=
  match r with ListOk xs _ => xs | _ => [] end.

(** The query's role: [role = "customer"] by default. *)
Definition query_party (role_q : option string) : option (Booking -> N) :=
  let r := match role_q with Some s => s | None => "customer" end in
  if String.eqb r "customer" then Some customer
  else if String.eqb r "provider" then Some provider
  else None.

(** [if (s) query.f = s]: a missing or empty filter matches everything. *)
Definition string_filter (q : option string) (v : string) : bool :=
  match q with
  | Some s => if String.eqb s "" then true else String.eqb v s
  | None => true
  end.

(** [Booking.find(query)] *)
Definition booking_matches (party : Booking -> N) (userId : N)
  (status_q bookingType_q : option string) (b : Booking) : bool :=
  N.eqb (party b) userId
  && string_filter status_q (status_value (status b))
  && string_filter bookingType_q (bookingType b).

(** [GET /api/users/:userId/bookings].  [sortf] is the order [.sort]
    gives for [sortBy] and [order]; the handler reads it from the query. *)
Definition list_user_bookings (u : User) (userId : N) (role_q status_q bookingType_q : option string)
  (pageNum limitNum : Z) (sortf : list Booking -> list Booking) (bs : list Booking)
  : list_result Booking :=
  if negb (N.eqb (user_id u) userId) && negb (String.eqb (role u) ADMIN)
  then ListFail FORBIDDEN else
  match query_party role_q with
  | None => ListFail BAD_REQUEST
  | Some party =>
    let found := filter (booking_matches party userId status_q bookingType_q) bs in
    let skip := (pageNum - 1) * limitNum in
    match mongo_page skip limitNum (sortf found) with
    | None => ListThrown
    | Some page =>
      ListOk page (pagination (Z.of_nat (length found)) pageNum limitNum)
    end
  end.

(** [query["ratings.overall"] = parseInt(rating)] when [rating] is truthy:
    [rating_q] is [None] for a missing or empty [rating], and otherwise the
    [parseInt] result, [None] for [NaN], which equals no stored rating. *)
Definition rating_filter (rating_q : option (option Z)) (r : ReviewDoc) : bool :=
  match rating_q with
  | None => true
  | Some None => false
  | Some (Some k) => rd_overall r =? k
  end.

Definition center_review_matches (centerId : N) (rating_q : option (option Z))
  (r : ReviewDoc) : bool :=
  match rd_eventCenter r with Some i => N.eqb i centerId | None => false end
  && negb (rd_isHidden r)
  && rating_filter rating_q r.

(** [GET /api/centers/:centerId/reviews], without the rating summary. *)
Definition list_center_reviews (centerId : N) (rating_q : option (option Z))
  (pageNum limitNum : Z) (sortf : list ReviewDoc -> list ReviewDoc)
  (cs : list EventCenter) (rs : list ReviewDoc) : list_result ReviewDoc :=
  match findCenter (Some centerId) cs with
  | None => ListFail NOT_FOUND
  | Some _ =>
    let found := filter (center_review_matches centerId rating_q) rs in
    match mongo_page ((pageNum - 1) * limitNum) limitNum (sortf found) with
    | None => ListThrown
    | Some page =>
      ListOk page (pagination (Z.of_nat (length found)) pageNum limitNum)
    end
  end.

(** *** Lemmas on pages *)

Lemma in_firstn_l {A : Type} (n : nat) (x : A) (l : list A) : In x (firstn n l) -> In x l.
Proof. intros H. rewrite <- (firstn_skipn n l). apply in_app_iff. left. exact H. Qed.

Lemma in_skipn_l {A : Type} (n : nat) (x : A) (l : list A) : In x (skipn n l) -> In x l.
Proof. intros H. rewrite <- (firstn_skipn n l). apply in_app_iff. right. exact H. Qed.

Lemma mongo_page_incl {A : Type} (skip limit : Z) (l xs : list A) :
  mongo_page skip limit l = Some xs -> forall x, In x xs -> In x l.
Proof.
  unfold mongo_page. intros H x Hx.
  destruct (skip <? 0); [discriminate|].
  destruct (limit =? 0); inversion H; subst.
  - apply in_skipn_l in Hx. exact Hx.
  - apply in_firstn_l, in_skipn_l in Hx. exact Hx.
Qed.




(** *** Theorems on the paginated lists *)

(** The pagination block of the bookings and review lists: with a
    positive [limit], [pages] is the least number of pages holding
    [total] items, [hasNext] holds exactly when items remain after page
    [page], and [hasPrev] when [page] is above 1. *)
Theorem pagination_spec (total pageNum limitNum : Z) :
  0 < limitNum -> 0 <= total ->
  exists c, pg_pages (pagination total pageNum limitNum) = NumFin c
    /\ total <= c * limitNum /\ (c - 1) * limitNum < total
    /\ pg_hasNext (pagination total pageNum limitNum) = (pageNum * limitNum <? total)
    /\ pg_hasPrev (pagination total pageNum limitNum) = (1 <? pageNum).
Proof.
  intros Hl Ht. unfold pagination, js_ceil_div. simpl.
  replace (limitNum =? 0) with false by (symmetry; apply Z.eqb_neq; lia).
  set (q := (- total) / limitNum).
  pose proof (Z.div_mod (- total) limitNum ltac:(lia)) as Hd.
  pose proof (Z.mod_pos_bound (- total) limitNum Hl) as Hm.
  fold q in Hd.
  exists (- q). split; [reflexivity|]. split; [nia|]. split; [nia|]. split; [|reflexivity].
  simpl. destruct (pageNum <? - q) eqn:E1; destruct (pageNum * limitNum <? total) eqn:E2;
    try reflexivity.
  - apply Z.ltb_lt in E1. apply Z.ltb_ge in E2. nia.
  - apply Z.ltb_ge in E1. apply Z.ltb_lt in E2. nia.
Qed.

Lemma pagination_spec_witness :
  (0 < 10 /\ 0 <= 25)
  /\ exists c, pg_pages (pagination 25 3 10) = NumFin c
    /\ 25 <= c * 10 /\ (c - 1) * 10 < 25
    /\ pg_hasNext (pagination 25 3 10) = (3 * 10 <? 25)
    /\ pg_hasPrev (pagination 25 3 10) = (1 <? 3).
Proof. split; [lia|]. apply (pagination_spec 25 3 10); lia. Defined.

(** A successful bookings list was asked by the user named in the path
    or by an admin, and returns only stored bookings in which that user
    has the requested role and that pass the [status] and [bookingType]
    filters; [total] counts all such bookings. *)
Theorem list_user_bookings_scope (u : User) (userId : N)
  (role_q status_q bookingType_q : option string) (pageNum limitNum : Z)
  (sortf : list Booking -> list Booking) (bs xs : list Booking) (pg : Pagination) :
  (forall l, Permutation (sortf l) l) ->
  list_user_bookings u userId role_q status_q bookingType_q pageNum limitNum sortf bs
    = ListOk xs pg ->
  (user_id u = userId \/ role u = ADMIN)
  /\ exists party, query_party role_q = Some party
     /\ (forall b, In b xs -> In b bs
                              /\ booking_matches party userId status_q bookingType_q b = true)
     /\ pg_total pg
        = Z.of_nat (length (filter (booking_matches party userId status_q bookingType_q) bs)).
Proof.
  intros Hsort. unfold list_user_bookings.
  destruct (negb (N.eqb (user_id u) userId) && negb (String.eqb (role u) ADMIN)) eqn:Ea;
    [discriminate|].
  destruct (query_party role_q) as [party|]; [|discriminate].
  destruct (mongo_page _ _ _) as [page|] eqn:Hp; [|discriminate].
  intros H. inversion H; subst. clear H. split.
  - destruct (N.eqb_spec (user_id u) userId); [left; assumption|right].
    destruct (String.eqb_spec (role u) ADMIN); [assumption|discriminate].
  - exists party. split; [reflexivity|]. split; [|reflexivity].
    intros b Hb. apply (mongo_page_incl _ _ _ _ Hp) in Hb.
    apply (Permutation_in _ (Hsort _)) in Hb. apply filter_In in Hb. exact Hb.
Qed.

Lemma list_user_bookings_scope_witness :
  let b := Sample.booking PENDING "pending" in
  list_user_bookings Sample.host 1 None None None 1 10 (fun l => l) [b]
    = ListOk [b] (pagination 1 1 10)
  /\ (user_id Sample.host = 1%N \/ role Sample.host = ADMIN).
Proof.
  intros b.
  assert (H : list_user_bookings Sample.host 1 None None None 1 10 (fun l => l) [b]
              = ListOk [b] (pagination 1 1 10)) by reflexivity.
  split; [exact H|].
  exact (proj1 (list_user_bookings_scope Sample.host 1 None None None 1 10 (fun l => l)
                  [b] [b] (pagination 1 1 10) (fun l => Permutation_refl l) H)).
Defined.



(** A center's review list answers 404 for an unknown center, and
    otherwise lists only stored reviews of that center that are not
    hidden and pass the [rating] filter. *)
Theorem list_center_reviews_scope (centerId : N) (rating_q : option (option Z))
  (pageNum limitNum : Z) (sortf : list ReviewDoc -> list ReviewDoc)
  (cs : list EventCenter) (rs : list ReviewDoc) :
  (findCenter (Some centerId) cs = None ->
   list_center_reviews centerId rating_q pageNum limitNum sortf cs rs = ListFail NOT_FOUND)
  /\ (forall xs pg, (forall l, Permutation (sortf l) l) ->
      list_center_reviews centerId rating_q pageNum limitNum sortf cs rs = ListOk xs pg ->
      findCenter (Some centerId) cs <> None
      /\ forall r, In r xs -> In r rs /\ rd_eventCenter r = Some centerId
                               /\ rd_isHidden r = false /\ rating_filter rating_q r = true).
Proof.
  unfold list_center_reviews. split.
  - intros Hn. rewrite Hn. reflexivity.
  - intros xs pg Hsort.
    destruct (findCenter (Some centerId) cs); [|discriminate].
    destruct (mongo_page _ _ _) as [page|] eqn:Hp; [|discriminate].
    intros H. inversion H; subst. clear H. split; [discriminate|].
    intros r Hr. apply (mongo_page_incl _ _ _ _ Hp) in Hr.
    apply (Permutation_in _ (Hsort _)) in Hr. apply filter_In in Hr as [Hin Hm].
    unfold center_review_matches in Hm.
    destruct (rd_eventCenter r) as [i|]; [|discriminate].
    apply andb_prop in Hm as [Hm Hr]. apply andb_prop in Hm as [Hi Hh].
    apply N.eqb_eq in Hi. subst i. apply negb_true_iff in Hh. auto.
Qed.

Lemma list_center_reviews_scope_witness :
  let r0 := mk_review_doc 400 "center" None (Some 50%N) 5 None None None 0 [] false 0 in
  let r1 := mk_review_doc 401 "center" None (Some 50%N) 1 None None None 0 [] true 2 in
  list_center_reviews 50 None 1 10 (fun l => l) [Sample.center] [r0; r1]
    = ListOk [r0] (pagination 1 1 10)
  /\ findCenter (Some 50%N) [Sample.center] <> None
  /\ list_center_reviews 51 None 1 10 (fun l => l) [Sample.center] [r0; r1]
    = ListFail NOT_FOUND.
Proof.
  intros r0 r1.
  assert (H : list_center_reviews 50 None 1 10 (fun l => l) [Sample.center] [r0; r1]
              = ListOk [r0] (pagination 1 1 10)) by reflexivity.
  split; [exact H|]. split.
  - exact (proj1 (proj2 (list_center_reviews_scope 50 None 1 10 (fun l => l)
                   [Sample.center] [r0; r1]) [r0] (pagination 1 1 10)
                   (fun l => Permutation_refl l) H)).
  - exact (proj1 (list_center_reviews_scope 51 None 1 10 (fun l => l)
                   [Sample.center] [r0; r1]) eq_refl).
Defined.

(** ** GET /api/bookings/:bookingId and GET /api/bookings/:bookingId/history

    [users] holds the ids of the stored users.  The details route
    populates [customer] and [provider]: a missing user populates to
    [null], whose [._id] or [.toString()] throws, and a populated
    document's [toString()] is its inspection text, never an id.  The
    history route selects the raw ids. *)
Definition find_booking (id : N) (bs : list Booking) : option Booking :=
  find (fun b => N.eqb (b_id b) id) bs.

(** [.populate(path)]: the user document (kept as its id), or [null]. *)
Definition populate_user (id : N) (users : list N) : option N :=
  if existsb (N.eqb id) users then Some id else None.

Definition booking_details (u : User) (bookingId : N) (bs : list Booking) (users : list N)
  : response :=
  match find_booking bookingId bs with
  | None => Failure NOT_FOUND
  | Some b =>
    match populate_user (customer b) users with
    | None => Thrown
    | Some cid =>
      if N.eqb cid (user_id u) then Success OK else
      match populate_user (provider b) users with
      | None => Thrown
      | Some _ =>
        if String.eqb (role u) ADMIN then Success OK else Failure FORBIDDEN
      end
    end
  end.

Definition booking_history (u : User) (bookingId : N) (bs : list Booking) : response :=
  match find_booking bookingId bs with
  | None => Failure NOT_FOUND
  | Some b => if is_party u b then Success OK else Failure FORBIDDEN
  end.

Lemma populate_user_in (id : N) (users : list N) :
  In id users -> populate_user id users = Some id.
Proof.
  unfold populate_user. intros H.
  replace (existsb (N.eqb id) users) with true; [reflexivity|].
  symmetry. apply existsb_exists. exists id. split; [exact H|apply N.eqb_refl].
Qed.

Lemma populate_user_notin (id : N) (users : list N) :
  ~ In id users -> populate_user id users = None.
Proof.
  unfold populate_user. intros H.
  destruct (existsb (N.eqb id) users) eqn:E; [|reflexivity].
  apply existsb_exists in E as (x & Hx & Ex). apply N.eqb_eq in Ex. subst. contradiction.
Qed.

(** The booking's provider, when neither its customer nor an admin, may
    read the booking's status history but never its details: the details
    route compares the populated provider document, not its id. *)
Theorem booking_details_excludes_provider (u : User) (bookingId : N) (bs : list Booking)
  (users : list N) (b : Booking) :
  find_booking bookingId bs = Some b ->
  provider b = user_id u -> customer b <> user_id u -> role u <> ADMIN ->
  booking_history u bookingId bs = Success OK
  /\ (booking_details u bookingId bs users = Failure FORBIDDEN
      \/ booking_details u bookingId bs users = Thrown).
Proof.
  intros Hf Hp Hc Hr. unfold booking_history, booking_details. rewrite Hf. split.
  - unfold is_party. rewrite Hp, N.eqb_refl, orb_true_r. reflexivity.
  - destruct (populate_user (customer b) users) as [cid|] eqn:Ec; [|right; reflexivity].
    unfold populate_user in Ec. destruct (existsb _ _); inversion Ec; subst cid.
    replace (N.eqb (customer b) (user_id u)) with false by (symmetry; apply N.eqb_neq; exact Hc).
    destruct (populate_user (provider b) users); [|right; reflexivity].
    replace (String.eqb (role u) ADMIN) with false
      by (symmetry; apply String.eqb_neq; exact Hr).
    left. reflexivity.
Qed.

Lemma booking_details_excludes_provider_witness :
  let b := Sample.booking PENDING "pending" in
  booking_details Sample.owner_user 100 [b] [1%N; 2%N] = Failure FORBIDDEN
  /\ booking_history Sample.owner_user 100 [b] = Success OK.
Proof.
  intros b. split; [reflexivity|].
  refine (proj1 (booking_details_excludes_provider Sample.owner_user 100 [b] [1%N; 2%N] b
                   eq_refl eq_refl _ _)); discriminate.
Defined.

(** The details route fails with a server error, for every requester,
    admins included, once the booking's customer account is gone, and for
    everyone but the customer once the provider account is gone; the
    history route does not depend on the accounts. *)
Theorem booking_details_missing_user (u : User) (bookingId : N) (bs : list Booking)
  (users : list N) (b : Booking) :
  find_booking bookingId bs = Some b ->
  (~ In (customer b) users \/ (customer b <> user_id u /\ ~ In (provider b) users)) ->
  booking_details u bookingId bs users = Thrown
  /\ booking_history u bookingId bs = if is_party u b then Success OK else Failure FORBIDDEN.
Proof.
  intros Hf Hm. unfold booking_history, booking_details. rewrite Hf.
  split; [|reflexivity].
  destruct Hm as [Hc|[Hc Hp]].
  - rewrite populate_user_notin by exact Hc. reflexivity.
  - unfold populate_user at 1.
    destruct (existsb (N.eqb (customer b)) users); [|reflexivity].
    replace (N.eqb (customer b) (user_id u)) with false by (symmetry; apply N.eqb_neq; exact Hc).
    rewrite populate_user_notin by exact Hp. reflexivity.
Qed.

Lemma booking_details_missing_user_witness :
  let b := Sample.booking PENDING "pending" in
  booking_details (mk_user 99 ADMIN) 100 [b] [2%N] = Thrown
  /\ booking_history (mk_user 99 ADMIN) 100 [b] = Success OK.
Proof.
  intros b.
  refine (booking_details_missing_user (mk_user 99 ADMIN) 100 [b] [2%N] b eq_refl _).
  left. simpl. intros [H|[]]. discriminate.
Defined.

(** ** Conversation routes (reviews routes file, from line 700)

    Ids are [N] and [id.toString()] comparisons are [N.eqb]; the
    [unreadCount] map (a Mongoose [Map] of [Number], keyed by user id) is
    an association list with distinct keys in insertion order.  Fields the
    routes below only write for display ([lastMessage], a message's
    [readBy] and [content.images/files]) are left out. *)
Record Conversation : Set := mk_conv {
  cv_id : N;
  cv_type : string;
  participants : list N;
  unreadCount : list (N * Z);
  cv_isArchived : bool;
  archivedBy : list N
}.

Record Message : Set := mk_msg {
  msg_id : N;
  msg_conversation : N;
  msg_sender : N;
  msg_type : string;
  msg_text : string;
  msg_isRead : bool;
  msg_deliveryStatus : string
}.

Record ChatStore : Set := mk_chat {
  chat_convs : list Conversation;
  chat_msgs : list Message
}.

Fixpoint map_get (k : N) (m : list (N * Z)) : option Z :=
  match m with
  | [] => None
  | (k', v) :: r => if N.eqb k' k then Some v else map_get k r
  end.

Fixpoint map_set (k : N) (v : Z) (m : list (N * Z)) : list (N * Z) :=
  match m with
  | [] => [(k, v)]
  | (k', v') :: r => if N.eqb k' k then (k, v) :: r else (k', v') :: map_set k v r
  end.

(** [map.get(k) || 0] *)
Definition get_or0 (k : N) (m : list (N * Z)) : Z :=
  match map_get k m with Some n => n | None => 0 end.

Definition set_unreadCount (c : Conversation) (m : list (N * Z)) : Conversation :=
  mk_conv (cv_id c) (cv_type c) (participants c) m (cv_isArchived c) (archivedBy c).

Definition set_archivedBy (c : Conversation) (l : list N) : Conversation :=
  mk_conv (cv_id c) (cv_type c) (participants c) (unreadCount c) (cv_isArchived c) l.

Definition find_conv (id : N) (cs : list Conversation) : option Conversation :=
  find (fun c => N.eqb (cv_id c) id) cs.

(** [conversation.save()], with the schema's pre-save hook: a direct
    conversation must have exactly two participants. *)
Definition conv_presave (c : Conversation) : bool :=
  negb (String.eqb (cv_type c) "direct" && negb (Nat.eqb (length (participants c)) 2)).

Definition save_conv (c : Conversation) (cs : list Conversation) : option (list Conversation) :=
  if conv_presave c
  then Some (map (fun c' => if N.eqb (cv_id c') (cv_id c) then c else c') cs)
  else None.

Definition is_participant (u : User) (c : Conversation) : bool :=
  existsb (fun p => N.eqb p (user_id u)) (participants c).

(** The validators [Message.create] runs: the [messageType] enum and
    [maxlength: 2000] of the trimmed text. *)
Definition message_valid (m : Message) : bool :=
  includes ["text"; "image"; "file"; "booking"; "system"] (msg_type m)
  && Nat.leb (String.length (msg_text m)) 2000.

(** [conversation.participants.forEach(...)] of the send route. *)
Definition increment_others (sender : N) (ps : list N) (m : list (N * Z)) : list (N * Z) :=
  fold_left (fun m p => if N.eqb p sender then m else map_set p (get_or0 p m + 1) m) ps m.

(** [POST /:conversationId/messages].  [images] and [files] are the
    lengths of the arrays sent, [None] when absent; [newId] is the id the
    new message gets. *)
Definition send_message (u : User) (conversationId : N) (text : option string)
  (images files : option nat) (messageType : option string) (newId : N) (st : ChatStore)
  : response * ChatStore :=
  match find_conv conversationId (chat_convs st) with
  | None => (Failure NOT_FOUND, st)
  | Some c =>
    if negb (is_participant u c) then (Failure FORBIDDEN, st) else
    if negb (nonempty text)
       && match images with Some n => Nat.eqb n 0 | None => true end
       && match files with Some n => Nat.eqb n 0 | None => true end
    then (Failure BAD_REQUEST, st) else
    let msg := mk_msg newId conversationId (user_id u)
                 (match messageType with Some s => s | None => "text" end)
                 (js_trim (or_default text "")) false "sent" in
    if negb (message_valid msg) then (Thrown, st) else
    let msgs := (chat_msgs st ++ [msg])%list in
    let c' := set_unreadCount c (increment_others (user_id u) (participants c) (unreadCount c)) in
    match save_conv c' (chat_convs st) with
    | None => (Thrown, mk_chat (chat_convs st) msgs)
    | Some cs' => (Success CREATED, mk_chat cs' msgs)
    end
  end.

Definition mark_msg_read (m : Message) : Message :=
  mk_msg (msg_id m) (msg_conversation m) (msg_sender m) (msg_type m) (msg_text m)
    true "read".

(** [PUT /:conversationId/read] *)
Definition mark_read (u : User) (conversationId : N) (st : ChatStore) : response * ChatStore :=
  match find_conv conversationId (chat_convs st) with
  | None => (Failure NOT_FOUND, st)
  | Some c =>
    if negb (is_participant u c) then (Failure FORBIDDEN, st) else
    let msgs := map (fun m => if N.eqb (msg_conversation m) conversationId
                                 && negb (N.eqb (msg_sender m) (user_id u))
                                 && negb (msg_isRead m)
                              then mark_msg_read m else m) (chat_msgs st) in
    let c' := set_unreadCount c (map_set (user_id u) 0 (unreadCount c)) in
    match save_conv c' (chat_convs st) with
    | None => (Thrown, mk_chat (chat_convs st) msgs)
    | Some cs' => (Success OK, mk_chat cs' msgs)
    end
  end.

(** [PUT /:conversationId/archive] *)
Definition archive_conv (u : User) (conversationId : N) (st : ChatStore) : response * ChatStore :=
  match find_conv conversationId (chat_convs st) with
  | None => (Failure NOT_FOUND, st)
  | Some c =>
    if negb (is_participant u c) then (Failure FORBIDDEN, st) else
    if existsb (fun x => N.eqb x (user_id u)) (archivedBy c) then (Success OK, st) else
    match save_conv (set_archivedBy c (archivedBy c ++ [user_id u])%list) (chat_convs st) with
    | None => (Thrown, st)
    | Some cs' => (Success OK, mk_chat cs' (chat_msgs st))
    end
  end.

(** [PUT /:conversationId/unarchive]: no participant check. *)
Definition unarchive_conv (u : User) (conversationId : N) (st : ChatStore) : response * ChatStore :=
  match find_conv conversationId (chat_convs st) with
  | None => (Failure NOT_FOUND, st)
  | Some c =>
    match save_conv (set_archivedBy c (filter (fun x => negb (N.eqb x (user_id u))) (archivedBy c)))
            (chat_convs st) with
    | None => (Thrown, st)
    | Some cs' => (Success OK, mk_chat cs' (chat_msgs st))
    end
  end.

(** [GET /unread-count]: the conversations with the user among the
    participants and [isArchived: false]. *)
Definition unread_total (uid : N) (cs : list Conversation) : Z :=
  fold_left (fun acc c => acc + get_or0 uid (unreadCount c))
    (filter (fun c => existsb (fun p => N.eqb p uid) (participants c) && negb (cv_isArchived c)) cs)
    0.

(** *** Lemmas on the conversation store *)

Lemma map_get_set_same (k : N) (v : Z) (m : list (N * Z)) :
  map_get k (map_set k v m) = Some v.
Proof.
  induction m as [|[k' v'] r IH]; simpl.
  - rewrite N.eqb_refl. reflexivity.
  - destruct (N.eqb k' k) eqn:E; simpl; [rewrite N.eqb_refl; reflexivity|].
    rewrite E. exact IH.
Qed.

Lemma map_get_set_other (k k' : N) (v : Z) (m : list (N * Z)) :
  k' <> k -> map_get k (map_set k' v m) = map_get k m.
Proof.
  intros Hne. induction m as [|[a b] r IH]; simpl.
  - replace (N.eqb k' k) with false by (symmetry; apply N.eqb_neq; exact Hne). reflexivity.
  - destruct (N.eqb a k') eqn:E; simpl.
    + apply N.eqb_eq in E. subst a.
      replace (N.eqb k' k) with false by (symmetry; apply N.eqb_neq; exact Hne). reflexivity.
    + rewrite IH. reflexivity.
Qed.

Lemma get_or0_increment_others (q s : N) (ps : list N) (m : list (N * Z)) :
  get_or0 q (increment_others s ps m)
  = get_or0 q m + (if N.eqb q s then 0 else Z.of_nat (count_occ N.eq_dec ps q)).
Proof.
  unfold increment_others. revert m.
  induction ps as [|p ps IH]; intros m; simpl.
  - destruct (N.eqb q s); lia.
  - rewrite IH. destruct (N.eqb p s) eqn:Eps.
    + apply N.eqb_eq in Eps. subst p.
      destruct (N.eqb q s) eqn:Eq; [lia|].
      destruct (N.eq_dec s q) as [e|_]; [subst; rewrite N.eqb_refl in Eq; discriminate|lia].
    + unfold get_or0 at 1. destruct (N.eq_dec p q) as [e|Hne].
      * subst p. rewrite map_get_set_same, Eps. unfold get_or0. lia.
      * rewrite map_get_set_other by exact Hne. fold (get_or0 q m).
        destruct (N.eqb q s); lia.
Qed.

Definition unread_rel (q : N) (c : Conversation) : bool :=
  existsb (fun p => N.eqb p q) (participants c) && negb (cv_isArchived c).

Fixpoint unread_sum (q : N) (cs : list Conversation) : Z :=
  match cs with
  | [] => 0
  | c :: r => (if unread_rel q c then get_or0 q (unreadCount c) else 0) + unread_sum q r
  end.

Lemma unread_total_sum (q : N) (cs : list Conversation) :
  unread_total q cs = unread_sum q cs.
Proof.
  unfold unread_total.
  assert (H : forall a, fold_left (fun acc c => acc + get_or0 q (unreadCount c))
                          (filter (unread_rel q) cs) a = a + unread_sum q cs).
  { induction cs as [|c r IH]; intros a; simpl; [lia|].
    destruct (unread_rel q c); simpl; rewrite IH; lia. }
  apply (H 0).
Qed.

Lemma find_conv_some (id : N) (cs : list Conversation) (c : Conversation) :
  find_conv id cs = Some c -> cv_id c = id /\ In c cs.
Proof.
  unfold find_conv. intros H. apply find_some in H as [Hin E].
  apply N.eqb_eq in E. auto.
Qed.

Lemma map_replace_absent (id : N) (c' : Conversation) (r : list Conversation) :
  ~ In id (map cv_id r) -> map (fun x => if N.eqb (cv_id x) id then c' else x) r = r.
Proof.
  induction r as [|y r IH]; intros Hx; [reflexivity|]. simpl in *.
  destruct (N.eqb (cv_id y) id) eqn:Ey.
  - apply N.eqb_eq in Ey. exfalso. apply Hx. left. exact Ey.
  - f_equal. apply IH. tauto.
Qed.

Lemma unread_sum_replace (q : N) (c c' : Conversation) (cs : list Conversation) :
  NoDup (map cv_id cs) -> In c cs -> cv_id c' = cv_id c -> unread_rel q c' = unread_rel q c ->
  unread_sum q (map (fun x => if N.eqb (cv_id x) (cv_id c') then c' else x) cs)
  = unread_sum q cs
    + (if unread_rel q c then get_or0 q (unreadCount c') - get_or0 q (unreadCount c) else 0).
Proof.
  intros Hnd Hin Hid Hrel. rewrite Hid.
  induction cs as [|x r IH]; [contradiction|].
  inversion Hnd as [|? ? Hx Hr]; subst. simpl.
  destruct (N.eqb (cv_id x) (cv_id c)) eqn:E.
  - apply N.eqb_eq in E.
    assert (Hxc : x = c).
    { destruct Hin as [Hin|Hin]; [exact Hin|].
      exfalso. apply Hx. rewrite E. apply in_map. exact Hin. }
    subst x.
    assert (Hr' : map (fun x => if N.eqb (cv_id x) (cv_id c) then c' else x) r = r).
    { apply map_replace_absent. exact Hx. }
    rewrite Hr', Hrel. destruct (unread_rel q c); lia.
  - destruct Hin as [Hin|Hin]; [subst x; rewrite N.eqb_refl in E; discriminate|].
    rewrite IH by assumption. lia.
Qed.

(** *** Theorems on conversations *)

(** Sending a message appends one unread message from the sender and
    raises every other user's unread total by the number of times that
    user is listed among the conversation's participants (once, for
    distinct participants), unless the conversation is archived; the
    sender's own total does not change. *)
Theorem send_message_unread (u : User) (conversationId : N) (text : option string)
  (images files : option nat) (messageType : option string) (newId : N)
  (st st' : ChatStore) (code : Z) :
  NoDup (map cv_id (chat_convs st)) ->
  send_message u conversationId text images files messageType newId st = (Success code, st') ->
  exists c m,
    find_conv conversationId (chat_convs st) = Some c
    /\ chat_msgs st' = (chat_msgs st ++ [m])%list
    /\ msg_sender m = user_id u /\ msg_conversation m = conversationId /\ msg_isRead m = false
    /\ forall q, unread_total q (chat_convs st')
                 = unread_total q (chat_convs st)
                   + (if N.eqb q (user_id u) || cv_isArchived c then 0
                      else Z.of_nat (count_occ N.eq_dec (participants c) q)).
Proof.
  intros Hnd. unfold send_message.
  destruct (find_conv conversationId (chat_convs st)) as [c|] eqn:Hf; [|discriminate].
  destruct (negb (is_participant u c)); [discriminate|].
  destruct (negb (nonempty text) && _ && _); [discriminate|].
  match goal with |- context [message_valid ?m] => set (msg := m) end.
  destruct (negb (message_valid msg)); [discriminate|].
  set (c' := set_unreadCount c (increment_others (user_id u) (participants c) (unreadCount c))).
  unfold save_conv. destruct (conv_presave c'); [|discriminate].
  intros H. inversion H; subst. clear H.
  pose proof (find_conv_some _ _ _ Hf) as [Hid Hin].
  exists c, msg. split; [reflexivity|]. split; [reflexivity|].
  split; [reflexivity|]. split; [reflexivity|]. split; [reflexivity|].
  intros q. simpl. rewrite !unread_total_sum.
  rewrite (unread_sum_replace q c c') by (auto; reflexivity).
  subst c'. simpl. rewrite get_or0_increment_others.
  unfold unread_rel. destruct (cv_isArchived c) eqn:Ea.
  - rewrite andb_false_r, orb_true_r. lia.
  - rewrite andb_true_r, orb_false_r.
    destruct (existsb (fun p => N.eqb p q) (participants c)) eqn:Eq.
    + destruct (N.eqb q (user_id u)); lia.
    + destruct (N.eqb q (user_id u)); [lia|].
      rewrite (proj1 (count_occ_not_In N.eq_dec (participants c) q)); [lia|].
      intros C. assert (existsb (fun p => N.eqb p q) (participants c) = true)
        by (apply existsb_exists; exists q; split; [exact C|apply N.eqb_refl]).
      congruence.
Qed.

Lemma send_message_unread_witness :
  let c := mk_conv 7 "direct" [1%N; 2%N] [] false [] in
  let st := mk_chat [c] [] in
  NoDup (map cv_id (chat_convs st))
  /\ send_message Sample.host 7 (Some "  Hello ") None None None 30 st
     = (Success CREATED,
        mk_chat [mk_conv 7 "direct" [1%N; 2%N] [(2%N, 1)] false []]
          [mk_msg 30 7 1 "text" "Hello" false "sent"])
  /\ exists c0 m, find_conv 7 (chat_convs st) = Some c0
       /\ chat_msgs (mk_chat [mk_conv 7 "direct" [1%N; 2%N] [(2%N, 1)] false []]
                       [mk_msg 30 7 1 "text" "Hello" false "sent"])
          = (chat_msgs st ++ [m])%list
       /\ msg_sender m = user_id Sample.host /\ msg_conversation m = 7%N
       /\ msg_isRead m = false
       /\ forall q, unread_total q [mk_conv 7 "direct" [1%N; 2%N] [(2%N, 1)] false []]
                    = unread_total q (chat_convs st)
                      + (if N.eqb q (user_id Sample.host) || cv_isArchived c0 then 0
                         else Z.of_nat (count_occ N.eq_dec (participants c0) q)).
Proof.
  intros c st.
  assert (Hnd : NoDup (map cv_id (chat_convs st))) by (repeat constructor; simpl; tauto).
  assert (H : send_message Sample.host 7 (Some "  Hello ") None None None 30 st
              = (Success CREATED,
                 mk_chat [mk_conv 7 "direct" [1%N; 2%N] [(2%N, 1)] false []]
                   [mk_msg 30 7 1 "text" "Hello" false "sent"])) by reflexivity.
  split; [exact Hnd|]. split; [exact H|].
  exact (send_message_unread Sample.host 7 (Some "  Hello ") None None None 30 st _ CREATED Hnd H).
Defined.

(** Marking a conversation read (a participant's request) leaves no
    unread message of the conversation from anyone else, drops the
    requester's unread total by the conversation's count for them (when it
    is not archived) and leaves every other user's total unchanged. *)
Theorem mark_read_unread (u : User) (conversationId : N) (st st' : ChatStore) (code : Z) :
  NoDup (map cv_id (chat_convs st)) ->
  mark_read u conversationId st = (Success code, st') ->
  exists c,
    find_conv conversationId (chat_convs st) = Some c /\ is_participant u c = true
    /\ (forall m, In m (chat_msgs st') -> msg_conversation m = conversationId ->
                  msg_sender m <> user_id u -> msg_isRead m = true)
    /\ unread_total (user_id u) (chat_convs st')
       = unread_total (user_id u) (chat_convs st)
         - (if cv_isArchived c then 0 else get_or0 (user_id u) (unreadCount c))
    /\ forall q, q <> user_id u -> unread_total q (chat_convs st') = unread_total q (chat_convs st).
Proof.
  intros Hnd. unfold mark_read.
  destruct (find_conv conversationId (chat_convs st)) as [c|] eqn:Hf; [|discriminate].
  destruct (is_participant u c) eqn:Hp; [|discriminate]. simpl.
  set (c' := set_unreadCount c (map_set (user_id u) 0 (unreadCount c))).
  unfold save_conv. destruct (conv_presave c'); [|discriminate].
  intros H. inversion H; subst. clear H.
  pose proof (find_conv_some _ _ _ Hf) as [Hid Hin].
  exists c. split; [reflexivity|]. split; [exact Hp|]. split; [|split].
  - intros m Hm Hc Hs. simpl in Hm. apply in_map_iff in Hm as (m0 & Hm0 & _).
    destruct (N.eqb (msg_conversation m0) conversationId && negb (N.eqb (msg_sender m0) (user_id u))
              && negb (msg_isRead m0)) eqn:E.
    + subst m. reflexivity.
    + subst m0. rewrite Hc, N.eqb_refl in E. simpl in E.
      replace (N.eqb (msg_sender m) (user_id u)) with false in E
        by (symmetry; apply N.eqb_neq; exact Hs).
      simpl in E. destruct (msg_isRead m); [reflexivity|discriminate].
  - simpl. rewrite !unread_total_sum.
    rewrite (unread_sum_replace (user_id u) c c') by (auto; reflexivity).
    subst c'. simpl. unfold get_or0 at 1. rewrite map_get_set_same.
    unfold unread_rel. unfold is_participant in Hp. rewrite Hp.
    destruct (cv_isArchived c); simpl; lia.
  - intros q Hq. simpl. rewrite !unread_total_sum.
    rewrite (unread_sum_replace q c c') by (auto; reflexivity).
    subst c'. simpl. unfold get_or0 at 1. rewrite map_get_set_other by congruence.
    fold (get_or0 q (unreadCount c)). destruct (unread_rel q c); lia.
Qed.

Lemma mark_read_unread_witness :
  let c := mk_conv 7 "direct" [1%N; 2%N] [(2%N, 3); (1%N, 1)] false [] in
  let st := mk_chat [c] [mk_msg 30 7 1 "text" "Hello" false "sent"] in
  NoDup (map cv_id (chat_convs st))
  /\ mark_read Sample.owner_user 7 st
     = (Success OK,
        mk_chat [mk_conv 7 "direct" [1%N; 2%N] [(2%N, 0); (1%N, 1)] false []]
          [mk_msg 30 7 1 "text" "Hello" true "read"])
  /\ unread_total 2 [mk_conv 7 "direct" [1%N; 2%N] [(2%N, 0); (1%N, 1)] false []]
     = unread_total 2 (chat_convs st) - (if cv_isArchived c then 0 else get_or0 2 (unreadCount c)).
Proof.
  intros c st.
  assert (Hnd : NoDup (map cv_id (chat_convs st))) by (repeat constructor; simpl; tauto).
  assert (H : mark_read Sample.owner_user 7 st
              = (Success OK,
                 mk_chat [mk_conv 7 "direct" [1%N; 2%N] [(2%N, 0); (1%N, 1)] false []]
                   [mk_msg 30 7 1 "text" "Hello" true "read"])) by reflexivity.
  split; [exact Hnd|]. split; [exact H|].
  destruct (mark_read_unread Sample.owner_user 7 st _ OK Hnd H)
    as (c0 & Hf & _ & _ & Ht & _).
  assert (Hc : c0 = c) by (simpl in Hf; congruence). subst c0. exact Ht.
Defined.

(** Archiving never changes anyone's unread total: it only records the
    user in [archivedBy], while the unread count filters on the
    conversation's [isArchived] flag, which no route here sets. *)
Theorem archive_keeps_unread (u : User) (conversationId : N) (st : ChatStore) (q : N) :
  NoDup (map cv_id (chat_convs st)) ->
  unread_total q (chat_convs (snd (archive_conv u conversationId st)))
  = unread_total q (chat_convs st).
Proof.
  intros Hnd. unfold archive_conv.
  destruct (find_conv conversationId (chat_convs st)) as [c|] eqn:Hf; [|reflexivity].
  destruct (negb (is_participant u c)); [reflexivity|].
  destruct (existsb _ _); [reflexivity|].
  set (c' := set_archivedBy c (archivedBy c ++ [user_id u])%list).
  unfold save_conv. destruct (conv_presave c'); [|reflexivity]. simpl.
  pose proof (find_conv_some _ _ _ Hf) as [Hid Hin].
  rewrite !unread_total_sum.
  rewrite (unread_sum_replace q c c') by (auto; reflexivity).
  destruct (unread_rel q c); simpl; lia.
Qed.

Lemma archive_keeps_unread_witness :
  let c := mk_conv 7 "direct" [1%N; 2%N] [(2%N, 3)] false [] in
  unread_total 2 (chat_convs (snd (archive_conv Sample.owner_user 7 (mk_chat [c] []))))
  = unread_total 2 [c] /\ unread_total 2 [c] = 3.
Proof.
  intros c. split; [|reflexivity].
  apply (archive_keeps_unread Sample.owner_user 7 (mk_chat [c] []) 2).
  repeat constructor; simpl; tauto.
Defined.



